(** * Rainbow iKey 2032 reader driver (src/ifd/ifd-ikey2k.c)

    A shallow embedding of the driver and the properties of its command
    protocol.  The host framework of internal.h (device handles, the USB
    control transfer, the error sink) is an interface the driver is
    parameterised by; every call into it is recorded as an event so that the
    sequence of transfers a driver entry point issues can be stated. *)

From Stdlib Require Import String ZArith List Bool Lia.
Import ListNotations.
Local Open Scope Z_scope.

(** ** C integers and byte buffers

    [int] values, and [size_t] values that are sizes of objects, are integers
    of [Z]; the conversions to the narrower unsigned types the driver stores
    into are written out.  A buffer reached through a pointer is the list of
    the bytes from the pointer to the end of the object; the length that
    travels with the pointer is a separate argument, as in the source.  A read
    past the end of the list, which in C is a read outside the object, gives
    0 here: the statements below that depend on the bytes read say for which
    lengths they hold. *)

Definition u8 (z : Z) : Z := Z.land z 0xFF.
Definition u16 (z : Z) : Z := Z.land z 0xFFFF.

Definition is_byte (z : Z) : Prop := 0 <= z < 256.

(** [buf[i] = v] *)
Definition store (buf : list Z) (i : nat) (v : Z) : list Z :=
  if (i <? length buf)%nat then firstn i buf ++ v :: skipn (S i) buf else buf.

(** [memcpy(dst + off, src, n)] *)
Definition memcpy (dst : list Z) (off : nat) (src : list Z) (n : Z) : list Z :=
  let copied := firstn (Z.to_nat n) src in
  firstn off dst ++ copied ++ skipn (off + length copied) dst.

(** A nullable output pointer. *)
Definition deref (p : option (list Z)) (dflt : list Z) : list Z :=
  match p with Some b => b | None => dflt end.

(** ** enum ikey2k_command *)

Inductive ikey2k_command : Set :=
| IKEY2K_CMD_RESET
| IKEY2K_CMD_GET_RESPONSE
| IKEY2K_CMD_GET_STATUS
| IKEY2K_CMD_LED_CONTROL
| IKEY2K_CMD_UNK_DIRECTORY
| IKEY2K_CMD_OPEN
| IKEY2K_CMD_CLOSE
| IKEY2K_CMD_READ
| IKEY2K_CMD_WRITE
| IKEY2K_CMD_UNK_DECREMENT
| IKEY2K_CMD_CREATE_DIR
| IKEY2K_CMD_CREATE_FILE
| IKEY2K_CMD_DELETE_DIR
| IKEY2K_CMD_DELETE_FILE
| IKEY2K_CMD_UNK_VERIFY1
| IKEY2K_CMD_UNK_VERIFY2
| IKEY2K_CMD_UNK_HASH
| IKEY2K_CMD_GEN_RANDOM
| IKEY2K_CMD_CARD_CTL
| IKEY2K_CMD_CARD_IO.

Definition command_code (cmd : ikey2k_command) : Z :=
  match cmd with
  | IKEY2K_CMD_RESET => 0
  | IKEY2K_CMD_GET_RESPONSE => 1
  | IKEY2K_CMD_GET_STATUS => 2
  | IKEY2K_CMD_LED_CONTROL => 3
  | IKEY2K_CMD_UNK_DIRECTORY => 4
  | IKEY2K_CMD_OPEN => 5
  | IKEY2K_CMD_CLOSE => 6
  | IKEY2K_CMD_READ => 7
  | IKEY2K_CMD_WRITE => 8
  | IKEY2K_CMD_UNK_DECREMENT => 9
  | IKEY2K_CMD_CREATE_DIR => 10
  | IKEY2K_CMD_CREATE_FILE => 11
  | IKEY2K_CMD_DELETE_DIR => 12
  | IKEY2K_CMD_DELETE_FILE => 13
  | IKEY2K_CMD_UNK_VERIFY1 => 14
  | IKEY2K_CMD_UNK_VERIFY2 => 15
  | IKEY2K_CMD_UNK_HASH => 16
  | IKEY2K_CMD_GEN_RANDOM => 18
  | IKEY2K_CMD_CARD_CTL => 22
  | IKEY2K_CMD_CARD_IO => 23
  end.

(** ** enum ikey2k_card_command *)

Inductive ikey2k_card_command : Set :=
| IKEY2K_CARDCMD_RESET
| IKEY2K_CARDCMD_GET_ATR
| IKEY2K_CARDCMD_UNK
| IKEY2K_CARDCMD_EXCHANGE.

Definition card_command_code (cmd : ikey2k_card_command) : Z :=
  match cmd with
  | IKEY2K_CARDCMD_RESET => 0x00
  | IKEY2K_CARDCMD_GET_ATR => 0x01
  | IKEY2K_CARDCMD_UNK => 0x02
  | IKEY2K_CARDCMD_EXCHANGE => 0x03
  end.

(** ** The host framework (internal.h)

    The functions, types and constants the driver takes from the reader
    framework.  [host] is the state of everything outside the driver (the
    devices, the USB stack).  [indeterminate] stands for the bytes found in
    automatic storage that has not been written yet. *)

Class HostFramework : Type := {
  ifd_device : Type;
  ifd_device_params : Type;
  reader_private : Type;
  host : Type;
  IFD_DEVICE_TYPE_USB : Z;
  ifd_device_open : string -> host -> option ifd_device * host;
  ifd_device_type : ifd_device -> host -> Z;
  ifd_device_close : ifd_device -> host -> host;
  settings : ifd_device -> host -> ifd_device_params;
  set_usb_interface : ifd_device_params -> Z -> ifd_device_params;
  ifd_device_set_parameters :
    ifd_device -> ifd_device_params -> host -> Z * host;
  ifd_usb_control :
    option ifd_device -> Z -> Z -> Z -> Z -> list Z -> Z -> Z -> host ->
    (Z * list Z) * host;
  indeterminate : list Z
}.

Section Driver.

Context {HF : HostFramework}.

(** The fields of [ifd_reader_t] the driver touches; the others are kept
    together in [private]. *)
Record ifd_reader : Type := mkReader {
  name : string;
  nslots : Z;
  device : option ifd_device;
  private : reader_private
}.

(** One call into the host framework, with its arguments and its result. *)
Inductive event : Type :=
| UsbControl (dev : option ifd_device) (requesttype request value index : Z)
    (data : list Z) (len timeout : Z) (rc : Z)
| DeviceOpen (device_name : string) (dev : option ifd_device)
| DeviceType (dev : ifd_device) (type : Z)
| DeviceSetParameters (dev : ifd_device) (params : ifd_device_params) (rc : Z)
| DeviceClose (dev : ifd_device)
| CtError (fmt : string) (args : list string).

(** Driver code runs against the host state and emits the events of the
    calls it makes, in order. *)
Definition M (A : Type) : Type := host -> A * host * list event.

Definition ret {A} (a : A) : M A := fun w => (a, w, []).

Definition bind {A B} (m : M A) (f : A -> M B) : M B :=
  fun w =>
    let '(a, w1, e1) := m w in
    let '(b, w2, e2) := f a w1 in
    (b, w2, e1 ++ e2).

Definition result {A} (m : M A) (w : host) : A := fst (fst (m w)).
Definition final {A} (m : M A) (w : host) : host := snd (fst (m w)).
Definition events {A} (m : M A) (w : host) : list event := snd (m w).

Notation "x <- m ;; k" := (bind m (fun x => k))
  (at level 61, m at next level, right associativity).
Notation "' pat <- m ;; k" := (bind m (fun x => match x with pat => k end))
  (at level 61, pat pattern, m at next level, right associativity).
Notation "m ;;; k" := (bind m (fun _ => k))
  (at level 61, right associativity).

(** The calls into the host framework, as driver-side operations. *)

Definition usb_control (dev : option ifd_device)
    (requesttype request value index : Z) (data : list Z) (len timeout : Z)
    : M (Z * list Z) :=
  fun w =>
    let '(rc, data', w') :=
      ifd_usb_control dev requesttype request value index data len timeout w in
    ((rc, data'), w',
     [UsbControl dev requesttype request value index data len timeout rc]).

Definition device_open (device_name : string) : M (option ifd_device) :=
  fun w =>
    let '(dev, w') := ifd_device_open device_name w in
    (dev, w', [DeviceOpen device_name dev]).

Definition device_type (dev : ifd_device) : M Z :=
  fun w => (ifd_device_type dev w, w, [DeviceType dev (ifd_device_type dev w)]).

Definition device_settings (dev : ifd_device) : M ifd_device_params :=
  fun w => (settings dev w, w, []).

Definition device_set_parameters (dev : ifd_device)
    (params : ifd_device_params) : M Z :=
  fun w =>
    let '(rc, w') := ifd_device_set_parameters dev params w in
    (rc, w', [DeviceSetParameters dev params rc]).

Definition device_close (dev : ifd_device) : M unit :=
  fun w => (tt, ifd_device_close dev w, [DeviceClose dev]).

Definition ct_error (fmt : string) (args : list string) : M unit :=
  fun w => (tt, w, [CtError fmt args]).

(** An automatic array of [n] bytes before anything is stored into it: the
    first [n] bytes of [indeterminate] (padded if there are fewer). *)
Definition auto_array (n : nat) : list Z :=
  firstn n (indeterminate ++ repeat 0 n).

(** ** Control-transfer codec *)

(** [ikey2k_do_send]: [data] advances and [len] decreases together, one byte
    at a time, while there are bytes left, up to four times.  This is the
    source for a [size_t] length, [0 <= len], and a buffer that holds the
    min(4, len) bytes read; with fewer bytes in the buffer the C reads
    outside the object. *)
Definition ikey2k_do_send (reader : ifd_reader) (cmd : ikey2k_command)
    (data : list Z) (len : Z) : M Z :=
  let value := 0 in
  let index := 0 in
  let '(value, data, len) :=
    if len >? 0 then (u16 (Z.lor value (hd 0 data)), tl data, len - 1)
    else (value, data, len) in
  let '(value, data, len) :=
    if len >? 0
    then (u16 (Z.lor value (Z.shiftl (hd 0 data) 8)), tl data, len - 1)
    else (value, data, len) in
  let '(index, data, len) :=
    if len >? 0 then (u16 (Z.lor index (hd 0 data)), tl data, len - 1)
    else (index, data, len) in
  let '(index, data, len) :=
    if len >? 0
    then (u16 (Z.lor index (Z.shiftl (hd 0 data) 8)), tl data, len - 1)
    else (index, data, len) in
  '(rc, _) <-
    usb_control (device reader) 0x41 (command_code cmd) value index
      data len 1000 ;;
  ret rc.

Definition ikey2k_do_recv (reader : ifd_reader) (cmd : ikey2k_command)
    (data : list Z) (len : Z) : M (Z * list Z) :=
  usb_control (device reader) 0xC1 (command_code cmd) 0 0 data len 1000.

(** ** Device command layer *)

(** [outdata && outlen] *)
Definition output_requested (outdata : option (list Z)) (outlen : Z) : bool :=
  match outdata with
  | Some _ => negb (outlen =? 0)
  | None => false
  end.

Definition ikey2k_do_cmd (reader : ifd_reader) (cmd : ikey2k_command)
    (indata : list Z) (inlen : Z) (outdata : option (list Z)) (outlen : Z)
    : M (Z * option (list Z)) :=
  rc <- ikey2k_do_send reader cmd indata inlen ;;
  if (rc >=? 0) && output_requested outdata outlen then
    '(rc, out) <-
      ikey2k_do_recv reader IKEY2K_CMD_GET_RESPONSE (deref outdata []) outlen ;;
    ret (rc, Some out)
  else ret (rc, outdata).

(** ** Card sub-command layer *)

Definition ikey2k_do_card_send (reader : ifd_reader)
    (indata : list Z) (inlen : Z) : M Z :=
  ikey2k_do_send reader IKEY2K_CMD_CARD_IO indata inlen.

Definition ikey2k_do_card_recv (reader : ifd_reader)
    (outdata : list Z) (outlen : Z) : M (Z * list Z) :=
  ikey2k_do_recv reader IKEY2K_CMD_GET_RESPONSE outdata outlen.

(** The scratch buffer [buf] of [ikey2k_do_card_cmd] as it stands when the
    send is issued, with the length the send is given.  [inlen + 2] is a
    [size_t] sum; [inlen] being the size of an object, it does not wrap. *)
Definition card_ctl_frame (cmd : ikey2k_card_command) (arg1 : Z)
    (indata : list Z) (inlen : Z) : list Z * Z :=
  let buf := auto_array 256 in
  let buf := store buf 0 (u8 (card_command_code cmd)) in
  let buf := store buf 1 (u8 arg1) in
  let buf :=
    if negb (inlen =? 0) then memcpy buf 2 indata (Z.min (256 - 2) inlen)
    else buf in
  (buf, inlen + 2).

Definition ikey2k_do_card_cmd (reader : ifd_reader)
    (cmd : ikey2k_card_command) (arg1 : Z) (indata : list Z) (inlen : Z)
    (outdata : option (list Z)) (outlen : Z) : M (Z * option (list Z)) :=
  let '(buf, len) := card_ctl_frame cmd arg1 indata inlen in
  rc <- ikey2k_do_send reader IKEY2K_CMD_CARD_CTL buf len ;;
  if (rc >=? 0) && output_requested outdata outlen then
    '(rc, out) <-
      ikey2k_do_recv reader IKEY2K_CMD_GET_RESPONSE (deref outdata []) outlen ;;
    ret (rc, Some out)
  else ret (rc, outdata).

(** ** Descriptor validator *)

(** [ikey2k_parse_desc] has three [return] statements, each with a negative
    code, and its body ends without one: [Some rc] is a returned value,
    [None] is control reaching the closing brace, where the call has no
    value. *)
Definition ikey2k_parse_desc (reader : ifd_reader) (desc : list Z)
    (desclen : Z) : option Z :=
  if (desclen <? 6) || (desclen >? 0x40) || negb (nth 0 desc 0 =? desclen)
  then Some (-1)
  else if (nth 1 desc 0 <? 0x60) || (nth 1 desc 0 >? 0x6F)
  then Some (-2)
  else if (desclen >? 0xC) && negb (nth 0xC desc 0 =? 9)
          && negb (nth 0xC desc 0 =? 25)
  then Some (-3)
  else None.

(** ** Driver API *)

Definition ikey2k_open (reader : ifd_reader) (device_name : string)
    : M (Z * ifd_reader) :=
  let reader :=
    mkReader "Rainbow Technologies iKey 2032" (nslots reader)
      (device reader) (private reader) in
  let reader :=
    mkReader (name reader) 1 (device reader) (private reader) in
  odev <- device_open device_name ;;
  match odev with
  | None => ret (-1, reader)
  | Some dev =>
    type <- device_type dev ;;
    if negb (type =? IFD_DEVICE_TYPE_USB) then
      ct_error "ikey2k: device %s is not a USB device" [device_name] ;;;
      device_close dev ;;;
      ret (-1, reader)
    else
      params <- device_settings dev ;;
      let params := set_usb_interface params 0 in
      rc <- device_set_parameters dev params ;;
      if rc <? 0 then
        ct_error "ikey2k: setting parameters failed" [device_name] ;;;
        device_close dev ;;;
        ret (-1, reader)
      else
        let reader :=
          mkReader (name reader) (nslots reader) (Some dev) (private reader) in
        ret (0, reader)
  end.

Definition ikey2k_close (reader : ifd_reader) : M Z := ret 0.

(** [ikey2k_activate] negates the value of the [ikey2k_parse_desc] call; when
    that call has no value the outcome is not defined by the program
    ([None]). *)
Definition ikey2k_activate (reader : ifd_reader) : M (option Z) :=
  let buffer := auto_array 256 in
  '(desclen, buffer) <- ikey2k_do_recv reader IKEY2K_CMD_RESET buffer 256 ;;
  if desclen <=? 0 then
    ct_error "ikey2k: failed to reset reader" [] ;;;
    ret (Some (-1))
  else
    match ikey2k_parse_desc reader buffer desclen with
    | Some v =>
      if v =? 0 then
        ct_error "ikey2k: failed to reset reader" [] ;;;
        ret (Some (-1))
      else ret (Some 0)
    | None => ret None
    end.

Definition ikey2k_deactivate (reader : ifd_reader) : M Z :=
  let buffer := auto_array 2 in
  '(rc, out) <-
    ikey2k_do_card_cmd reader IKEY2K_CARDCMD_RESET 0 buffer 0 (Some buffer) 2 ;;
  let buffer := deref out buffer in
  if negb (rc =? 1) || negb (nth 0 buffer 0 =? 0) then
    ct_error "ikey2k: failed to reset card" [] ;;;
    ret (-1)
  else ret 0.

(** The [failed:] label of [ikey2k_card_reset]. *)
Definition card_reset_failed (atr : list Z) : M (Z * list Z) :=
  ct_error "ikey2k: failed to activate token" [] ;;;
  ret (-1, atr).

(** [ikey2k_card_reset] returns its [int] result and the contents of the
    caller's [atr] buffer.  [atrlen > size] converts [atrlen] to [size_t];
    it is evaluated only when [atrlen >= 9], where the conversion keeps the
    value. *)
Definition ikey2k_card_reset (reader : ifd_reader) (slot : Z)
    (atr : list Z) (size : Z) : M (Z * list Z) :=
  let buffer := auto_array 256 in
  '(rc, out) <-
    ikey2k_do_card_cmd reader IKEY2K_CARDCMD_RESET 0 buffer 0 (Some buffer) 2 ;;
  let buffer := deref out buffer in
  if negb (rc =? 1) || negb (nth 0 buffer 0 =? 0) then card_reset_failed atr
  else
    '(atrlen, out) <-
      ikey2k_do_card_cmd reader IKEY2K_CARDCMD_GET_ATR 25 buffer 0
        (Some buffer) 25 ;;
    let buffer := deref out buffer in
    '(atrlen, out) <-
      (if negb (atrlen =? 25) then
         ikey2k_do_card_cmd reader IKEY2K_CARDCMD_GET_ATR 9 buffer 0
           (Some buffer) 9
       else ret (atrlen, Some buffer)) ;;
    let buffer := deref out buffer in
    if (atrlen <? 9) || (atrlen >? size) then card_reset_failed atr
    else ret (atrlen, memcpy atr 0 buffer atrlen).

Definition ikey2k_send (reader : ifd_reader) (dad : Z)
    (buffer : list Z) (len : Z) : M Z :=
  ikey2k_do_card_send reader buffer len.

Definition ikey2k_recv (reader : ifd_reader) (dad : Z)
    (buffer : list Z) (len : Z) (timeout : Z) : M (Z * list Z) :=
  ikey2k_do_card_recv reader buffer len.

End Driver.

(** ** Reading the events of a run *)

Section Traces.

Context {HF : HostFramework}.

Definition is_transfer (e : event) : bool :=
  match e with
  | UsbControl _ _ _ _ _ _ _ _ _ => true
  | _ => false
  end.

(** The control transfers among the events of a run. *)
Definition transfers (evs : list event) : list event := filter is_transfer evs.

(** A host-to-device transfer of the card-control command whose first frame
    byte, the low byte of [value], is the sub-command [sub]. *)
Definition is_card_ctl (sub : ikey2k_card_command) (e : event) : bool :=
  match e with
  | UsbControl _ requesttype request value _ _ _ _ _ =>
    (requesttype =? 0x41) && (request =? command_code IKEY2K_CMD_CARD_CTL)
    && (Z.land value 0xFF =? card_command_code sub)
  | _ => false
  end.

(** The bytes a host-to-device transfer carries: [len] bytes from [data]. *)
Definition payload (data : list Z) (len : Z) : list Z :=
  firstn (Z.to_nat len) data.

(** What the spec calls the frame handed to the command layer: [len] bytes
    from the scratch buffer. *)
Definition frame_bytes (frame : list Z * Z) : list Z :=
  payload (fst frame) (snd frame).

(** The two 16-bit fields of a frame, little-endian, as the spec words them:
    bytes 0 and 1 make [value], bytes 2 and 3 make [index], a missing byte
    counts as zero. *)
Definition send_value (frame : list Z) : Z :=
  nth 0 frame 0 + 256 * nth 1 frame 0.
Definition send_index (frame : list Z) : Z :=
  nth 2 frame 0 + 256 * nth 3 frame 0.

(** The verdict of the validator on a descriptor, as the spec words it. *)
Definition descriptor_well_formed (desc : list Z) (length : Z) : Prop :=
  6 <= length <= 0x40 /\
  nth 0 desc 0 = length /\
  0x60 <= nth 1 desc 0 <= 0x6F /\
  (length <= 0x0C \/ nth 0x0C desc 0 = 9 \/ nth 0x0C desc 0 = 25).

End Traces.

(** ** Further readings of a run *)

Section Wire.

Context {HF : HostFramework}.

(** The four bytes a receiver reads back from the two 16-bit fields of a
    transfer: low and high byte of [value], then of [index]. *)
Definition header_bytes (value index : Z) : list Z :=
  [Z.land value 0xFF; Z.shiftr value 8; Z.land index 0xFF; Z.shiftr index 8].

(** An input of fewer than four bytes, filled up with zero bytes. *)
Definition pad4 (data : list Z) : list Z :=
  data ++ repeat 0 (4 - length data).

Definition is_error (e : event) : bool :=
  match e with
  | CtError _ _ => true
  | _ => false
  end.

(** The two kinds of transfer of a card sub-command without input, on the
    device [dev]: the card-control send whose frame is its two header bytes,
    and the GET_RESPONSE receive. *)
Definition card_exchange_event (dev : option ifd_device) (e : event) : Prop :=
  match e with
  | UsbControl d requesttype request value index _ len timeout _ =>
    d = dev /\ timeout = 1000 /\
    ((requesttype = 0x41 /\ request = 22 /\ index = 0 /\ len = 0) \/
     (requesttype = 0xC1 /\ request = 1 /\ value = 0 /\ index = 0))
  | _ => False
  end.

End Wire.

(** ** A simulated host

    A scripted device for running the driver on concrete inputs: each control
    transfer takes the next entry of [script], a result code and the bytes
    the device delivers; a device-to-host transfer stores the bytes at the
    start of the buffer.  Fresh automatic storage holds 0xAA bytes. *)

Module Sim.

Record sim_host : Type := mkSim {
  script : list (Z * list Z);
  openable : bool;
  type_of_device : Z;
  set_parameters_rc : Z
}.

Definition deliver (data bytes : list Z) : list Z :=
  firstn (length data) (bytes ++ skipn (length bytes) data).

Definition sim_usb_control (dev : option unit)
    (requesttype request value index : Z) (data : list Z) (len timeout : Z)
    (w : sim_host) : (Z * list Z) * sim_host :=
  match script w with
  | [] => ((-1, data), w)
  | (rc, bytes) :: rest =>
    ((rc, if requesttype =? 0xC1 then deliver data bytes else data),
     mkSim rest (openable w) (type_of_device w) (set_parameters_rc w))
  end.

#[export] Instance sim : HostFramework := {
  ifd_device := unit;
  ifd_device_params := Z;
  reader_private := unit;
  host := sim_host;
  IFD_DEVICE_TYPE_USB := 2;
  ifd_device_open := fun _ w => (if openable w then Some tt else None, w);
  ifd_device_type := fun _ w => type_of_device w;
  ifd_device_close := fun _ w => w;
  settings := fun _ _ => 5;
  set_usb_interface := fun _ i => i;
  ifd_device_set_parameters := fun _ _ w => (set_parameters_rc w, w);
  ifd_usb_control := sim_usb_control;
  indeterminate := repeat 0xAA 256
}.

(** A host whose device answers the transfers as scripted. *)
Definition scripted (s : list (Z * list Z)) : sim_host := mkSim s true 2 0.

(** An opened reader. *)
Definition reader0 : ifd_reader :=
  mkReader "Rainbow Technologies iKey 2032" 1 (Some tt) tt.

(** A reader before [open]. *)
Definition closed_reader : ifd_reader := mkReader "" 0 None tt.

(** The descriptor of the source's comment: 0d6300062d2dc0808060800119. *)
Definition example_desc : list Z :=
  [0x0d; 0x63; 0x00; 0x06; 0x2d; 0x2d; 0xc0; 0x80; 0x80; 0x60; 0x80; 0x01; 0x19].

(** The same with byte 1 outside 0x60..0x6F. *)
Definition bad_tag_desc : list Z :=
  [0x0d; 0x50; 0x00; 0x06; 0x2d; 0x2d; 0xc0; 0x80; 0x80; 0x60; 0x80; 0x01; 0x19].

(** An input one byte longer than the scratch buffer has room for. *)
Definition input255 : list Z := repeat 0x11 255.

End Sim.

(** * Properties *)

(** ** Bytes and 16-bit fields *)

Lemma land_byte_shifted (a b : Z) : is_byte a -> Z.land a (Z.shiftl b 8) = 0.
Proof.
  intros Ha. apply Z.bits_inj'. intros n Hn.
  rewrite Z.land_spec, Z.bits_0.
  destruct (Z.lt_ge_cases n 8) as [Hlt | Hge].
  - rewrite (Z.shiftl_spec_low b 8 n Hlt). apply andb_false_r.
  - rewrite <- (Z.mod_small a (2 ^ 8)) by (unfold is_byte in Ha; lia).
    rewrite Z.mod_pow2_bits_high by lia. reflexivity.
Qed.

Lemma lor_shiftl_bytes (a b : Z) :
  is_byte a -> Z.lor a (Z.shiftl b 8) = a + 256 * b.
Proof.
  intros Ha.
  rewrite <- Z.lxor_lor by (apply land_byte_shifted; assumption).
  rewrite <- Z.add_nocarry_lxor by (apply land_byte_shifted; assumption).
  rewrite Z.shiftl_mul_pow2 by lia. lia.
Qed.

Lemma u16_small (z : Z) : 0 <= z < 65536 -> u16 z = z.
Proof.
  intros Hz. unfold u16. change 0xFFFF with (Z.ones 16).
  rewrite Z.land_ones by lia. apply Z.mod_small. lia.
Qed.

Lemma u8_small (z : Z) : is_byte z -> u8 z = z.
Proof.
  intros Hz. unfold u8. change 0xFF with (Z.ones 8).
  rewrite Z.land_ones by lia. apply Z.mod_small. unfold is_byte in Hz. lia.
Qed.

Lemma u8_is_byte (z : Z) : is_byte (u8 z).
Proof.
  unfold u8, is_byte. change 0xFF with (Z.ones 8).
  rewrite Z.land_ones by lia. apply Z.mod_pos_bound. lia.
Qed.

Lemma low_byte_of_field (a b : Z) :
  is_byte a -> Z.land (a + 256 * b) 0xFF = a.
Proof.
  intros Ha. change 0xFF with (Z.ones 8). rewrite Z.land_ones by lia.
  change (2 ^ 8) with 256. rewrite (Z.mul_comm 256 b), Z.mod_add by lia.
  apply Z.mod_small. exact Ha.
Qed.

(** Proof steps for the exits of [ikey2k_open]. *)

Ltac open_case :=
  try reflexivity;
  try (left; reflexivity); try (right; reflexivity);
  try (intros H; exfalso; apply H; reflexivity);
  try (intros dev' Hdev; discriminate Hdev);
  try (intros dev' Hdev; inversion Hdev; subst; split; intros Hrc;
       [ first [ exfalso; apply Hrc; reflexivity | cbn; auto 10 ]
       | first
           [ discriminate Hrc
           | split;
             [ reflexivity
             | intros Hin; cbn in Hin;
               repeat (destruct Hin as [Hin | Hin]; try discriminate Hin);
               exact Hin ] ] ]).

(** Proof steps for the four guarded byte reads of [ikey2k_do_send]. *)

Ltac split_bytes :=
  repeat match goal with
         | H : Forall is_byte (_ :: _) |- _ =>
           let Hh := fresh "Hbyte" in
           apply Forall_cons_iff in H; destruct H as [Hh H];
           unfold is_byte in Hh
         end.

Ltac send_steps :=
  repeat (first
    [ match goal with
      | |- context [?x >? 0] =>
        replace (x >? 0) with true by (symmetry; apply Z.gtb_lt; lia)
      end
    | match goal with
      | |- context [?x >? 0] =>
        replace (x >? 0) with false
          by (symmetry; rewrite Z.gtb_ltb; apply Z.ltb_ge; lia)
      end ];
    cbv beta iota zeta; simpl hd; simpl tl).

Ltac send_finish :=
  simpl nth; simpl skipn;
  repeat match goal with
         | |- context [Z.shiftl 0 8] => change (Z.shiftl 0 8) with 0
         | |- context [Z.lor 0 ?x] => rewrite (Z.lor_0_l x)
         | |- context [Z.lor ?x 0] => rewrite (Z.lor_0_r x)
         | |- context [u16 ?x] => rewrite (u16_small x) by lia
         | |- context [Z.lor ?a (Z.shiftl ?b 8)] =>
           rewrite (lor_shiftl_bytes a b) by (unfold is_byte; lia)
         end;
  rewrite ?Z.add_0_r, ?Z.mul_0_r, ?Z.add_0_r;
  unfold bind, usb_control, ret;
  match goal with
  | |- context [ifd_usb_control ?a ?b ?c ?d ?e ?f ?g ?h ?w] =>
    destruct (ifd_usb_control a b c d e f g h w) as [[? ?] ?]
  end; reflexivity.

Section Properties.

Context {HF : HostFramework}.

(** ** Descriptor validator *)

Lemma parse_desc_cases (reader : ifd_reader) (desc : list Z) (desclen : Z) :
  ikey2k_parse_desc reader desc desclen = None \/
  ikey2k_parse_desc reader desc desclen = Some (-1) \/
  ikey2k_parse_desc reader desc desclen = Some (-2) \/
  ikey2k_parse_desc reader desc desclen = Some (-3).
Proof.
  unfold ikey2k_parse_desc.
  repeat match goal with
         | |- context [if ?c then _ else _] => destruct c
         end; auto.
Qed.

Lemma parse_desc_none_iff (reader : ifd_reader) (desc : list Z) (desclen : Z) :
  ikey2k_parse_desc reader desc desclen = None <->
  descriptor_well_formed desc desclen.
Proof.
  unfold ikey2k_parse_desc, descriptor_well_formed.
  destruct (Z.ltb_spec desclen 6); simpl.
  { split; [discriminate | lia]. }
  destruct (Z.gtb_spec desclen 0x40); simpl.
  { split; [discriminate | lia]. }
  destruct (Z.eqb_spec (nth 0 desc 0) desclen); simpl.
  2:{ split; [discriminate | tauto]. }
  destruct (Z.ltb_spec (nth 1 desc 0) 0x60); simpl.
  { split; [discriminate | lia]. }
  destruct (Z.gtb_spec (nth 1 desc 0) 0x6F); simpl.
  { split; [discriminate | lia]. }
  destruct (Z.gtb_spec desclen 0xC); simpl.
  2:{ split; [intros _ | reflexivity]. repeat split; try lia; auto. }
  destruct (Z.eqb_spec (nth 12 desc 0) 9); simpl.
  { split; [intros _ | reflexivity]. repeat split; try lia; auto. }
  destruct (Z.eqb_spec (nth 12 desc 0) 25); simpl.
  { split; [intros _ | reflexivity]. repeat split; try lia; auto. }
  split; [discriminate |].
  intros (_ & _ & _ & [Hl | [H9 | H25]]); [lia | contradiction | contradiction].
Qed.

(** C3.  For a well-formed descriptor (6 <= length <= 0x40, descriptor[0] =
    length, 0x60 <= descriptor[1] <= 0x6F, and length <= 0x0C or
    descriptor[0x0C] is 9 or 25) none of the three [return] statements of
    [ikey2k_parse_desc] is reached: control arrives at the closing brace and
    the call has no value, so no accepting verdict is returned. *)
Theorem parse_desc_returns_nothing_when_well_formed
    (reader : ifd_reader) (desc : list Z) (desclen : Z) :
  descriptor_well_formed desc desclen ->
  ikey2k_parse_desc reader desc desclen = None /\
  forall verdict : Z, ikey2k_parse_desc reader desc desclen <> Some verdict.
Proof.
  intros Hwf. apply (parse_desc_none_iff reader) in Hwf.
  split; [exact Hwf |]. intros verdict. rewrite Hwf. discriminate.
Qed.

(** ** Raw send and receive *)

(** C9.  [ikey2k_send] is [ikey2k_do_card_send] and [ikey2k_recv] is
    [ikey2k_do_card_recv] on the same buffer and length: from the same host
    state, runs that differ in [dad] (and, for recv, in [timeout]) give the
    same result, leave the host in the same state and issue the same
    transfers. *)
Theorem send_recv_ignore_dad_and_timeout
    (reader : ifd_reader) (buffer : list Z) (len : Z) (w : host) :
  (forall dad dad' : Z,
     ikey2k_send reader dad buffer len w =
     ikey2k_send reader dad' buffer len w) /\
  (forall dad : Z,
     ikey2k_send reader dad buffer len w =
     ikey2k_do_card_send reader buffer len w) /\
  (forall dad dad' timeout timeout' : Z,
     ikey2k_recv reader dad buffer len timeout w =
     ikey2k_recv reader dad' buffer len timeout' w) /\
  (forall dad timeout : Z,
     ikey2k_recv reader dad buffer len timeout w =
     ikey2k_do_card_recv reader buffer len w).
Proof. repeat split. Qed.

(** ** Control-transfer codec *)

(** What [ikey2k_do_send] does with a buffer of which [len] bytes are to be
    sent: one host-to-device transfer, the header fields made of the first
    bytes, the pointer advanced past them. *)
Lemma do_send_run (reader : ifd_reader) (cmd : ikey2k_command)
    (data : list Z) (len : Z) (w : host) :
  0 <= len ->
  Forall is_byte (payload data len) ->
  ikey2k_do_send reader cmd data len w =
  let r := ifd_usb_control (device reader) 0x41 (command_code cmd)
             (send_value (payload data len)) (send_index (payload data len))
             (skipn (Z.to_nat (Z.min 4 len)) data)
             (Z.max 0 (len - 4)) 1000 w in
  (fst (fst r), snd r,
   [UsbControl (device reader) 0x41 (command_code cmd)
      (send_value (payload data len)) (send_index (payload data len))
      (skipn (Z.to_nat (Z.min 4 len)) data)
      (Z.max 0 (len - 4)) 1000 (fst (fst r))]).
Proof.
  intros Hlen Hb. unfold ikey2k_do_send, send_value, send_index, payload in *.
  assert (Hcase : len = 0 \/ len = 1 \/ len = 2 \/ len = 3 \/ 4 <= len) by lia.
  destruct Hcase as [-> | [-> | [-> | [-> | Hge]]]].
  5:{ replace (Z.to_nat (Z.min 4 len)) with 4%nat by lia.
      replace (Z.max 0 (len - 4)) with (len - 1 - 1 - 1 - 1) by lia.
      destruct (Z.to_nat len) as [| [| [| [| m]]]] eqn:Hm; try lia.
      clear Hm.
      destruct data as [| b0 [| b1 [| b2 [| b3 rest]]]]; simpl firstn in *;
        split_bytes; send_steps; send_finish. }
  all: simpl (Z.to_nat _) in *;
    match goal with
    | |- context [Z.max 0 ?x] =>
      let v := eval compute in (Z.max 0 x) in change (Z.max 0 x) with v
    end;
    destruct data as [| b0 [| b1 [| b2 [| b3 rest]]]]; simpl firstn in *;
    split_bytes; send_steps; simpl (_ - 1); send_finish.
Qed.

Lemma skipn_min_4 (data : list Z) :
  skipn (Z.to_nat (Z.min 4 (Z.of_nat (length data)))) data = skipn 4 data.
Proof.
  destruct data as [| b0 [| b1 [| b2 [| b3 rest]]]]; try reflexivity.
  replace (Z.to_nat (Z.min 4 (Z.of_nat (length (b0 :: b1 :: b2 :: b3 :: rest)))))
    with 4%nat by (simpl length; lia).
  reflexivity.
Qed.

Lemma payload_all (data : list Z) : payload data (Z.of_nat (length data)) = data.
Proof. unfold payload. rewrite Nat2Z.id. apply firstn_all. Qed.

(** C5.  For every command and every input byte sequence, [ikey2k_do_send]
    issues one host-to-device transfer in which [value] is byte 0 plus 256
    times byte 1 and [index] is byte 2 plus 256 times byte 3 (a missing byte
    counting as zero), and whose payload is the input without its first four
    bytes, max(0, len - 4) bytes long: the header bytes are not sent again. *)
Theorem do_send_header_then_payload
    (reader : ifd_reader) (cmd : ikey2k_command) (data : list Z) (w : host) :
  Forall is_byte data ->
  let len := Z.of_nat (length data) in
  let value := nth 0 data 0 + 256 * nth 1 data 0 in
  let index := nth 2 data 0 + 256 * nth 3 data 0 in
  let rest := skipn 4 data in
  let r := ifd_usb_control (device reader) 0x41 (command_code cmd)
             value index rest (Z.max 0 (len - 4)) 1000 w in
  ikey2k_do_send reader cmd data len w =
    (fst (fst r), snd r,
     [UsbControl (device reader) 0x41 (command_code cmd)
        value index rest (Z.max 0 (len - 4)) 1000 (fst (fst r))]) /\
  Z.of_nat (length rest) = Z.max 0 (len - 4) /\
  payload rest (Z.max 0 (len - 4)) = rest /\
  0 <= value < 65536 /\ 0 <= index < 65536.
Proof.
  intros Hb len value index rest r.
  assert (Hrest : Z.of_nat (length rest) = Z.max 0 (len - 4)).
  { unfold rest, len. rewrite length_skipn. lia. }
  split; [| split; [exact Hrest | split]].
  - unfold r, rest, value, index, len.
    rewrite do_send_run by (rewrite ?payload_all; auto; lia).
    rewrite payload_all, skipn_min_4. reflexivity.
  - rewrite <- Hrest. apply payload_all.
  - assert (Hnth : forall i, is_byte (nth i data 0)).
    { intros i. destruct (Nat.lt_ge_cases i (length data)) as [Hi | Hi].
      - rewrite Forall_forall in Hb. apply Hb, nth_In, Hi.
      - rewrite nth_overflow by exact Hi. unfold is_byte. lia. }
    pose proof (Hnth 0%nat). pose proof (Hnth 1%nat).
    pose proof (Hnth 2%nat). pose proof (Hnth 3%nat).
    unfold is_byte, value, index in *. lia.
Qed.

(** ** Device command layer *)

(** C6.  For every command, every input (a length >= 0 and a buffer that
    holds the bytes the send reads) and every output pointer and capacity,
    [ikey2k_do_cmd] performs the send first.  A negative send result is
    returned as it is, with no further transfer and the output buffer as it
    was.  When the send succeeds and output was requested, that is [outdata]
    is not null and [outlen] is not 0, one receive follows, under
    GET_RESPONSE (request code 1) whatever [cmd] is, into [outdata] with
    capacity [outlen], and its result is returned.  When the send succeeds
    and [outdata] is null or [outlen] is 0, there is no receive and the
    send's result is returned. *)
Theorem do_cmd_send_then_get_response
    (reader : ifd_reader) (cmd : ikey2k_command) (indata : list Z) (inlen : Z)
    (outdata : option (list Z)) (outlen : Z) (w : host) :
  0 <= inlen ->
  Z.min 4 inlen <= Z.of_nat (length indata) ->
  let sent := ikey2k_do_send reader cmd indata inlen w in
  let rc := fst (fst sent) in
  let w1 := snd (fst sent) in
  (rc < 0 ->
   ikey2k_do_cmd reader cmd indata inlen outdata outlen w =
     ((rc, outdata), w1, snd sent)) /\
  (0 <= rc ->
   forall out : list Z,
     outdata = Some out ->
     outlen <> 0 ->
     let fetched :=
       usb_control (device reader) 0xC1 1 0 0 out outlen 1000 w1 in
     ikey2k_do_cmd reader cmd indata inlen outdata outlen w =
       ((fst (fst (fst fetched)), Some (snd (fst (fst fetched)))),
        snd (fst fetched), snd sent ++ snd fetched)) /\
  (0 <= rc ->
   outdata = None \/ outlen = 0 ->
   ikey2k_do_cmd reader cmd indata inlen outdata outlen w =
     ((rc, outdata), w1, snd sent)).
Proof.
  intros Hinlen Hheld sent rc w1. unfold ikey2k_do_cmd, bind.
  subst w1 rc sent.
  destruct (ikey2k_do_send reader cmd indata inlen w) as [[rc w1] evs].
  cbn [fst snd]. rewrite Z.geb_leb.
  repeat apply conj.
  - intros Hneg.
    replace (0 <=? rc) with false by (symmetry; apply Z.leb_gt; lia).
    cbn. rewrite app_nil_r. reflexivity.
  - intros Hpos out -> Hlen.
    replace (0 <=? rc) with true by (symmetry; apply Z.leb_le; lia).
    cbn [andb output_requested deref].
    replace (outlen =? 0) with false by (symmetry; apply Z.eqb_neq; exact Hlen).
    cbn [negb]. unfold ikey2k_do_recv. cbn [command_code].
    destruct (usb_control _ _ _ _ _ _ _ _ w1) as [[[rc' out'] w2] evs'].
    cbn. rewrite app_nil_r. reflexivity.
  - intros Hpos Hnone.
    replace (0 <=? rc) with true by (symmetry; apply Z.leb_le; lia).
    cbn [andb].
    replace (output_requested outdata outlen) with false.
    + cbn. rewrite app_nil_r. reflexivity.
    + destruct Hnone as [-> | ->]; [reflexivity |].
      destruct outdata; reflexivity.
Qed.

(** ** Card sub-command layer *)

Lemma auto_array_length (n : nat) : length (auto_array n) = n.
Proof.
  unfold auto_array. rewrite length_firstn, length_app, repeat_length. lia.
Qed.

(** The scratch buffer after the two header stores. *)
Lemma card_ctl_header (cmd : ikey2k_card_command) (arg1 : Z) :
  store (store (auto_array 256) 0 (u8 (card_command_code cmd))) 1 (u8 arg1) =
  card_command_code cmd :: u8 arg1 :: skipn 2 (auto_array 256).
Proof.
  pose proof (auto_array_length 256) as Hlen.
  destruct (auto_array 256) as [| a0 [| a1 rest]] eqn:Ha;
    try (simpl in Hlen; lia).
  unfold store.
  replace (0 <? length (a0 :: a1 :: rest))%nat with true
    by (symmetry; apply Nat.ltb_lt; simpl; lia).
  cbn [firstn skipn app].
  replace (1 <? length (u8 (card_command_code cmd) :: a1 :: rest))%nat with true
    by (symmetry; apply Nat.ltb_lt; simpl; lia).
  cbn [firstn skipn app].
  destruct cmd; reflexivity.
Qed.

Lemma card_ctl_frame_buf (cmd : ikey2k_card_command) (arg1 : Z)
    (indata : list Z) :
  card_ctl_frame cmd arg1 indata (Z.of_nat (length indata)) =
  (card_command_code cmd :: u8 arg1 :: firstn 254 indata ++
     skipn (2 + Nat.min 254 (length indata)) (auto_array 256),
   Z.of_nat (length indata) + 2).
Proof.
  unfold card_ctl_frame. rewrite card_ctl_header. f_equal.
  replace (2 + Nat.min 254 (length indata))%nat
    with (Nat.min 254 (length indata) + 2)%nat by lia.
  rewrite <- skipn_skipn.
  generalize (skipn 2 (auto_array 256)). intros tail.
  destruct indata as [| b rest].
  - reflexivity.
  - replace (Z.of_nat (length (b :: rest)) =? 0) with false
      by (symmetry; apply Z.eqb_neq; simpl length; lia).
    cbn [negb]. unfold memcpy.
    replace (Z.to_nat (Z.min (256 - 2) (Z.of_nat (length (b :: rest)))))
      with (Nat.min 254 (length (b :: rest))) by lia.
    assert (Hcopy : firstn (Nat.min 254 (length (b :: rest))) (b :: rest) =
                    firstn 254 (b :: rest)).
    { rewrite <- firstn_firstn, firstn_all. reflexivity. }
    rewrite Hcopy.
    replace (length (firstn 254 (b :: rest)))
      with (Nat.min 254 (length (b :: rest))) by (rewrite length_firstn; lia).
    change (firstn 2 (?x :: ?y :: ?l)) with [x; y].
    reflexivity.
Qed.

Lemma card_ctl_frame_length (cmd : ikey2k_card_command) (arg1 : Z)
    (indata : list Z) :
  length (fst (card_ctl_frame cmd arg1 indata (Z.of_nat (length indata)))) = 256%nat.
Proof.
  rewrite card_ctl_frame_buf. cbn [fst length].
  rewrite length_app, length_firstn, length_skipn, auto_array_length. lia.
Qed.

(** An input that fits: the frame is the two header bytes and the input. *)
Lemma card_ctl_frame_fits (cmd : ikey2k_card_command) (arg1 : Z)
    (indata : list Z) :
  (length indata <= 254)%nat ->
  let frame := card_ctl_frame cmd arg1 indata (Z.of_nat (length indata)) in
  frame_bytes frame = card_command_code cmd :: u8 arg1 :: indata /\
  snd frame = 2 + Z.min 254 (Z.of_nat (length indata)).
Proof.
  intros Hfit frame. unfold frame, frame_bytes, payload.
  rewrite card_ctl_frame_buf. cbn [fst snd]. split; [| lia].
  replace (Z.to_nat (Z.of_nat (length indata) + 2))
    with (S (S (length indata))) by lia.
  rewrite (firstn_all2 (n := 254) indata) by exact Hfit.
  generalize (skipn (2 + Nat.min 254 (length indata)) (auto_array 256)).
  intros tail. change (firstn (S (S ?n)) (?x :: ?y :: ?l)) with (x :: y :: firstn n l).
  rewrite firstn_app, firstn_all, Nat.sub_diag, firstn_O, app_nil_r.
  reflexivity.
Qed.


Lemma Forall_firstn (P : Z -> Prop) (n : nat) (l : list Z) :
  Forall P l -> Forall P (firstn n l).
Proof.
  intros H. rewrite <- (firstn_skipn n l) in H.
  apply Forall_app in H. apply H.
Qed.

Lemma card_command_code_byte (cmd : ikey2k_card_command) :
  is_byte (card_command_code cmd).
Proof. destruct cmd; unfold is_byte; simpl; lia. Qed.

(** A card sub-command without input: the frame is the two header bytes, and
    both go into [value]. *)
Lemma do_card_cmd_no_input (reader : ifd_reader) (sub : ikey2k_card_command)
    (arg1 : Z) (indata : list Z) (outdata : option (list Z)) (outlen : Z)
    (w : host) :
  let value := card_command_code sub + 256 * u8 arg1 in
  let tail := skipn 2 (auto_array 256) in
  let s := ifd_usb_control (device reader) 0x41 22 value 0 tail 0 1000 w in
  let rc := fst (fst s) in
  let f := ifd_usb_control (device reader) 0xC1 1 0 0 (deref outdata [])
             outlen 1000 (snd s) in
  ikey2k_do_card_cmd reader sub arg1 indata 0 outdata outlen w =
    if (rc >=? 0) && output_requested outdata outlen
    then ((fst (fst f), Some (snd (fst f))), snd f,
          [UsbControl (device reader) 0x41 22 value 0 tail 0 1000 rc;
           UsbControl (device reader) 0xC1 1 0 0 (deref outdata []) outlen
             1000 (fst (fst f))])
    else ((rc, outdata), snd s,
          [UsbControl (device reader) 0x41 22 value 0 tail 0 1000 rc]).
Proof.
  intros value tail s rc f.
  unfold ikey2k_do_card_cmd, card_ctl_frame.
  rewrite card_ctl_header. fold tail. clearbody tail.
  cbn [Z.eqb negb Z.add]. unfold bind.
  pose proof (card_command_code_byte sub) as Hc.
  pose proof (u8_is_byte arg1) as Ha.
  rewrite do_send_run.
  2: lia.
  2:{ unfold payload. change (Z.to_nat 2) with 2%nat. cbn [firstn].
      apply Forall_cons; [exact Hc | apply Forall_cons; [exact Ha | apply Forall_nil]]. }
  unfold payload, send_value, send_index.
  change (Z.to_nat 2) with 2%nat. change (Z.to_nat (Z.min 4 2)) with 2%nat.
  change (Z.max 0 (2 - 4)) with 0.
  cbn [firstn nth skipn]. change (0 + 256 * 0) with 0.
  fold value. cbv zeta. subst f rc s.
  change (command_code IKEY2K_CMD_CARD_CTL) with 22.
  destruct (ifd_usb_control (device reader) 65 22 value 0 tail 0 1000 w)
    as [[rcs d] w1].
  cbn [fst snd].
  destruct ((rcs >=? 0) && output_requested outdata outlen).
  - unfold ikey2k_do_recv, usb_control, ret. cbn [command_code].
    destruct (ifd_usb_control _ _ _ _ _ _ _ _ w1) as [[rc' out] w2].
    reflexivity.
  - reflexivity.
Qed.


(** Such a call issues one card-control transfer, of its own sub-command. *)
Lemma card_cmd_sub_transfers (reader : ifd_reader)
    (sub sub' : ikey2k_card_command) (arg1 : Z) (indata : list Z)
    (outdata : option (list Z)) (outlen : Z) (w : host) :
  length (filter (is_card_ctl sub')
            (events (ikey2k_do_card_cmd reader sub arg1 indata 0
                       outdata outlen) w)) =
  if card_command_code sub =? card_command_code sub' then 1%nat else 0%nat.
Proof.
  unfold events. rewrite do_card_cmd_no_input. cbv zeta.
  match goal with
  | |- context [if ?c then _ else _] => destruct c
  end; cbn [snd filter is_card_ctl];
    rewrite low_byte_of_field by apply card_command_code_byte;
    change (command_code IKEY2K_CMD_CARD_CTL) with 22;
    cbn [Z.eqb Pos.eqb andb];
    destruct (card_command_code sub =? card_command_code sub'); reflexivity.
Qed.

Lemma card_reset_run (reader : ifd_reader) (slot : Z) (atr : list Z)
    (size : Z) (w : host) :
  let buffer := auto_array 256 in
  let reset :=
    ikey2k_do_card_cmd reader IKEY2K_CARDCMD_RESET 0 buffer 0 (Some buffer) 2
      w in
  let buffer0 := deref (snd (fst (fst reset))) buffer in
  let atr25 :=
    ikey2k_do_card_cmd reader IKEY2K_CARDCMD_GET_ATR 25 buffer0 0
      (Some buffer0) 25 (snd (fst reset)) in
  let buffer25 := deref (snd (fst (fst atr25))) buffer0 in
  let atr9 :=
    ikey2k_do_card_cmd reader IKEY2K_CARDCMD_GET_ATR 9 buffer25 0
      (Some buffer25) 9 (snd (fst atr25)) in
  let buffer9 := deref (snd (fst (fst atr9))) buffer25 in
  let failure := CtError "ikey2k: failed to activate token" [] in
  let finish := fun (atrlen : Z) (buf : list Z) (w' : host) (evs : list event) =>
    if (9 <=? atrlen) && (atrlen <=? size)
    then ((atrlen, memcpy atr 0 buf atrlen), w', evs)
    else ((-1, atr), w', evs ++ [failure]) in
  ikey2k_card_reset reader slot atr size w =
    if (fst (fst (fst reset)) =? 1) && (nth 0 buffer0 0 =? 0) then
      if fst (fst (fst atr25)) =? 25
      then finish 25 buffer25 (snd (fst atr25)) (snd reset ++ snd atr25)
      else finish (fst (fst (fst atr9))) buffer9 (snd (fst atr9))
             (snd reset ++ snd atr25 ++ snd atr9)
    else ((-1, atr), snd (fst reset), snd reset ++ [failure]).
Proof.
  intros buffer reset buffer0 atr25 buffer25 atr9 buffer9 failure finish.
  unfold ikey2k_card_reset, bind. fold buffer. fold reset.
  subst buffer0 atr25 buffer25 atr9 buffer9.
  destruct reset as [[[rc0 out0] w0] ev0]. cbn [fst snd].
  set (buffer0 := deref out0 buffer).
  destruct (rc0 =? 1); cbn [negb orb andb].
  2:{ reflexivity. }
  destruct (nth 0 buffer0 0 =? 0); cbn [negb orb andb].
  2:{ reflexivity. }
  destruct (ikey2k_do_card_cmd reader IKEY2K_CARDCMD_GET_ATR 25 buffer0 0
              (Some buffer0) 25 w0) as [[[len25 out25] w25] ev25].
  cbn [fst snd]. set (buffer25 := deref out25 buffer0).
  destruct (Z.eqb_spec len25 25) as [-> | Hne]; cbn [negb].
  - unfold finish, card_reset_failed, bind, ct_error, ret.
    cbn [deref Z.ltb Z.leb Z.compare Pos.compare Pos.compare_cont orb andb].
    rewrite Z.gtb_ltb, Z.ltb_antisym.
    destruct (25 <=? size); cbn [negb]; cbv beta iota zeta; cbn [app];
      rewrite ?app_nil_r, <- ?app_assoc; reflexivity.
  - destruct (ikey2k_do_card_cmd reader IKEY2K_CARDCMD_GET_ATR 9 buffer25 0
                (Some buffer25) 9 w25) as [[[len9 out9] w9] ev9].
    cbn [fst snd]. unfold finish, card_reset_failed, bind, ct_error, ret.
    rewrite Z.gtb_ltb, !Z.ltb_antisym.
    destruct (9 <=? len9); destruct (len9 <=? size); cbn [negb orb andb];
      cbv beta iota zeta; cbn [app];
      rewrite ?app_nil_r, <- ?app_assoc; reflexivity.
Qed.

(** C2.  An input longer than 254 bytes: the copy into the scratch buffer
    is cut at 254 bytes, so the buffer holds the two header bytes and the
    first 254 input bytes, 256 bytes in all, but the length given to the send
    is inlen + 2 and not 2 + min(254, inlen) = 256: the transfer is issued
    with a length of inlen - 2 on the 252 bytes that follow the header. *)
Theorem card_cmd_sends_untruncated_length
    (reader : ifd_reader) (cmd : ikey2k_card_command) (arg1 : Z)
    (indata : list Z) (outdata : option (list Z)) (outlen : Z) (w : host) :
  Forall is_byte indata ->
  (254 < length indata)%nat ->
  let inlen := Z.of_nat (length indata) in
  let frame := card_ctl_frame cmd arg1 indata inlen in
  fst frame = card_command_code cmd :: u8 arg1 :: firstn 254 indata /\
  length (fst frame) = 256%nat /\
  snd frame = inlen + 2 /\
  2 + Z.min 254 inlen = 256 /\
  256 < snd frame /\
  Z.of_nat (length (skipn 4 (fst frame))) = 252 /\
  exists rc : Z,
    hd_error (events (ikey2k_do_card_cmd reader cmd arg1 indata inlen
                        outdata outlen) w) =
    Some (UsbControl (device reader) 0x41 22
            (send_value (fst frame)) (send_index (fst frame))
            (skipn 4 (fst frame)) (inlen - 2) 1000 rc).
Proof.
  intros Hb Hlong inlen frame.
  assert (Hin : 254 < inlen) by (unfold inlen; lia).
  unfold events, ikey2k_do_card_cmd. fold inlen. fold frame.
  assert (Hframe : frame =
            (card_command_code cmd :: u8 arg1 :: firstn 254 indata,
             inlen + 2)).
  { unfold frame, inlen. rewrite card_ctl_frame_buf.
    rewrite skipn_all2 by (rewrite auto_array_length; lia).
    rewrite app_nil_r. reflexivity. }
  assert (Hlen : length (fst frame) = 256%nat).
  { apply card_ctl_frame_length. }
  clearbody frame inlen. subst frame. cbn [fst snd] in *.
  set (buf := card_command_code cmd :: u8 arg1 :: firstn 254 indata) in *.
  assert (Hpayload : payload buf (inlen + 2) = buf).
  { unfold payload. apply firstn_all2. lia. }
  assert (Hbytes : Forall is_byte buf).
  { apply Forall_cons; [apply card_command_code_byte |].
    apply Forall_cons; [apply u8_is_byte |].
    apply Forall_firstn. exact Hb. }
  repeat apply conj; try reflexivity; try lia.
  { rewrite length_skipn, Hlen. reflexivity. }
  unfold bind.
  rewrite do_send_run by (rewrite ?Hpayload; auto; lia).
  rewrite Hpayload.
  replace (Z.to_nat (Z.min 4 (inlen + 2))) with 4%nat by lia.
  replace (Z.max 0 (inlen + 2 - 4)) with (inlen - 2) by lia.
  cbv zeta. cbn [fst snd].
  change (command_code IKEY2K_CMD_CARD_CTL) with 22.
  match goal with
  | |- context [ifd_usb_control ?a ?b ?c ?d ?e ?f ?g ?h ?w] =>
    destruct (ifd_usb_control a b c d e f g h w) as [[rc d'] w']
  end.
  exists rc. cbn [fst snd].
  match goal with
  | |- context [if ?c then _ else _] => destruct c
  end.
  - destruct (ikey2k_do_recv _ _ _ _ w') as [[[rc' out] w2] ev]. reflexivity.
  - reflexivity.
Qed.

(** ** Activation *)

(** C1.  A descriptor that was received (length > 0) and that the validator
    rejects: [ikey2k_activate] returns 0, success, and reports no error. *)
Theorem activate_succeeds_on_rejected_descriptor
    (reader : ifd_reader) (w : host) :
  let recv := ikey2k_do_recv reader IKEY2K_CMD_RESET (auto_array 256) 256 w in
  let desclen := fst (fst (fst recv)) in
  let buffer := snd (fst (fst recv)) in
  0 < desclen ->
  ~ descriptor_well_formed buffer desclen ->
  result (ikey2k_activate reader) w = Some 0 /\
  events (ikey2k_activate reader) w = snd recv.
Proof.
  intros recv desclen buffer Hpos Hbad.
  unfold result, events, ikey2k_activate, bind. fold recv.
  subst desclen buffer.
  destruct recv as [[[desclen buffer] w1] evs]. cbn [fst snd] in *.
  replace (desclen <=? 0) with false by (symmetry; apply Z.leb_gt; lia).
  destruct (parse_desc_cases reader buffer desclen) as [H | [H | [H | H]]];
    rewrite H.
  - exfalso. apply Hbad. apply (parse_desc_none_iff reader). exact H.
  - cbn. rewrite app_nil_r. split; reflexivity.
  - cbn. rewrite app_nil_r. split; reflexivity.
  - cbn. rewrite app_nil_r. split; reflexivity.
Qed.

(** C7, as the code has it.  [ikey2k_activate] issues exactly one control
    transfer: a device-to-host transfer (request type 0xC1) whose request is
    RESET, with value 0 and index 0, into a 256-byte buffer; there is no
    host-to-device transfer and no GET_RESPONSE.  When the returned length is
    <= 0 it fails; otherwise its outcome is decided by the result of the
    validator on the received buffer and length. *)
Theorem activate_single_reset_receive :
  exists decide : option Z -> option Z,
  forall (reader : ifd_reader) (w : host),
    let r := ifd_usb_control (device reader) 0xC1 0 0 0 (auto_array 256) 256
               1000 w in
    let desclen := fst (fst r) in
    let buffer := snd (fst r) in
    transfers (events (ikey2k_activate reader) w) =
      [UsbControl (device reader) 0xC1 0 0 0 (auto_array 256) 256 1000
         desclen] /\
    (desclen <= 0 -> result (ikey2k_activate reader) w = Some (-1)) /\
    (0 < desclen ->
     result (ikey2k_activate reader) w =
     decide (ikey2k_parse_desc reader buffer desclen)).
Proof.
  exists (fun v => match v with
                   | Some c => if c =? 0 then Some (-1) else Some 0
                   | None => None
                   end).
  intros reader w r desclen buffer.
  unfold result, events, ikey2k_activate, ikey2k_do_recv, usb_control, bind.
  cbn [command_code]. subst desclen buffer. fold r.
  destruct r as [[desclen buffer] w1]. cbn [fst snd].
  destruct (Z.leb_spec desclen 0) as [Hle | Hgt].
  - cbn. repeat apply conj; [reflexivity | reflexivity | lia].
  - destruct (ikey2k_parse_desc reader buffer desclen) as [c |].
    + destruct (c =? 0); cbn; repeat apply conj; try reflexivity; lia.
    + cbn. repeat apply conj; try reflexivity; lia.
Qed.

(** ** Card reset *)

Lemma transfers_app (evs evs' : list event) :
  transfers (evs ++ evs') = transfers evs ++ transfers evs'.
Proof. apply filter_app. Qed.

Lemma get_atr_calls_app (evs evs' : list event) :
  length (filter (is_card_ctl IKEY2K_CARDCMD_GET_ATR) (evs ++ evs')) =
  (length (filter (is_card_ctl IKEY2K_CARDCMD_GET_ATR) evs) +
   length (filter (is_card_ctl IKEY2K_CARDCMD_GET_ATR) evs'))%nat.
Proof. rewrite filter_app, length_app. reflexivity. Qed.

(** C8.  When the card-reset sub-command does not return 1 with byte 0 of
    the response equal to 0, [ikey2k_card_reset] returns -1 and leaves the
    caller's buffer as it was; it has made the calls of that sub-command and
    reported the error, and none of its transfers is a GET_ATR. *)
Theorem card_reset_stops_after_failed_reset
    (reader : ifd_reader) (slot : Z) (atr : list Z) (size : Z) (w : host) :
  let buffer := auto_array 256 in
  let reset :=
    ikey2k_do_card_cmd reader IKEY2K_CARDCMD_RESET 0 buffer 0 (Some buffer) 2
      w in
  let rc := fst (fst (fst reset)) in
  let buffer0 := deref (snd (fst (fst reset))) buffer in
  ~ (rc = 1 /\ nth 0 buffer0 0 = 0) ->
  let run := ikey2k_card_reset reader slot atr size w in
  fst (fst run) = (-1, atr) /\
  snd run = snd reset ++ [CtError "ikey2k: failed to activate token" []] /\
  filter (is_card_ctl IKEY2K_CARDCMD_GET_ATR) (snd run) = [].
Proof.
  intros buffer reset rc buffer0 Hfail run.
  assert (Hcond : (rc =? 1) && (nth 0 buffer0 0 =? 0) = false).
  { destruct (Z.eqb_spec rc 1); destruct (Z.eqb_spec (nth 0 buffer0 0) 0);
      try reflexivity. exfalso. apply Hfail. split; assumption. }
  unfold run. rewrite card_reset_run. cbv zeta.
  fold buffer. fold reset. fold rc. fold buffer0. rewrite Hcond.
  cbn [fst snd]. repeat apply conj; try reflexivity.
  apply length_zero_iff_nil. rewrite get_atr_calls_app.
  unfold reset, buffer.
  pose proof (card_cmd_sub_transfers reader IKEY2K_CARDCMD_RESET
                IKEY2K_CARDCMD_GET_ATR 0 (auto_array 256)
                (Some (auto_array 256)) 2 w) as Hcount.
  unfold events in Hcount. rewrite Hcount. reflexivity.
Qed.

(** C4.  [ikey2k_card_reset] first requires the card-reset sub-command to
    return 1 with response byte 0 equal to 0, and fails otherwise.  It then
    asks for the ATR with argument 25 and capacity 25.  If that returns 25
    there is no further transfer: one GET_ATR transfer in all.  If it returns
    anything else there is one more call, with argument 9 and capacity 9: two
    GET_ATR transfers in all.  The length returned last is accepted, and that
    many bytes are copied to the caller, iff it lies in [9, size]. *)
Theorem card_reset_atr_negotiation
    (reader : ifd_reader) (slot : Z) (atr : list Z) (size : Z) (w : host) :
  let buffer := auto_array 256 in
  let reset :=
    ikey2k_do_card_cmd reader IKEY2K_CARDCMD_RESET 0 buffer 0 (Some buffer) 2
      w in
  let rc0 := fst (fst (fst reset)) in
  let buffer0 := deref (snd (fst (fst reset))) buffer in
  let atr25 :=
    ikey2k_do_card_cmd reader IKEY2K_CARDCMD_GET_ATR 25 buffer0 0
      (Some buffer0) 25 (snd (fst reset)) in
  let len25 := fst (fst (fst atr25)) in
  let buffer25 := deref (snd (fst (fst atr25))) buffer0 in
  let atr9 :=
    ikey2k_do_card_cmd reader IKEY2K_CARDCMD_GET_ATR 9 buffer25 0
      (Some buffer25) 9 (snd (fst atr25)) in
  let len9 := fst (fst (fst atr9)) in
  let buffer9 := deref (snd (fst (fst atr9))) buffer25 in
  let run := ikey2k_card_reset reader slot atr size w in
  let atr_calls :=
    length (filter (is_card_ctl IKEY2K_CARDCMD_GET_ATR) (snd run)) in
  (~ (rc0 = 1 /\ nth 0 buffer0 0 = 0) -> fst (fst run) = (-1, atr)) /\
  (rc0 = 1 /\ nth 0 buffer0 0 = 0 ->
   (len25 = 25 ->
    transfers (snd run) = transfers (snd reset ++ snd atr25) /\
    atr_calls = 1%nat /\
    (25 <= size -> fst (fst run) = (25, memcpy atr 0 buffer25 25)) /\
    (size < 25 -> fst (fst run) = (-1, atr))) /\
   (len25 <> 25 ->
    transfers (snd run) = transfers (snd reset ++ snd atr25 ++ snd atr9) /\
    atr_calls = 2%nat /\
    (9 <= len9 <= size -> fst (fst run) = (len9, memcpy atr 0 buffer9 len9)) /\
    (~ 9 <= len9 <= size -> fst (fst run) = (-1, atr)))).
Proof.
  intros buffer reset rc0 buffer0 atr25 len25 buffer25 atr9 len9 buffer9 run
    atr_calls.
  assert (Hreset : length (filter (is_card_ctl IKEY2K_CARDCMD_GET_ATR)
                             (snd reset)) = 0%nat).
  { apply (card_cmd_sub_transfers reader IKEY2K_CARDCMD_RESET
             IKEY2K_CARDCMD_GET_ATR). }
  assert (H25 : length (filter (is_card_ctl IKEY2K_CARDCMD_GET_ATR)
                          (snd atr25)) = 1%nat).
  { apply (card_cmd_sub_transfers reader IKEY2K_CARDCMD_GET_ATR
             IKEY2K_CARDCMD_GET_ATR). }
  assert (H9 : length (filter (is_card_ctl IKEY2K_CARDCMD_GET_ATR)
                         (snd atr9)) = 1%nat).
  { apply (card_cmd_sub_transfers reader IKEY2K_CARDCMD_GET_ATR
             IKEY2K_CARDCMD_GET_ATR). }
  assert (Hrun := card_reset_run reader slot atr size w).
  cbv zeta in Hrun.
  fold buffer reset buffer0 atr25 buffer25 atr9 buffer9 in Hrun.
  fold rc0 len25 len9 in Hrun. fold run in Hrun.
  unfold atr_calls. clearbody run.
  clearbody len9 buffer9. clearbody atr9. clearbody len25 buffer25.
  clearbody atr25. clearbody rc0 buffer0. clearbody reset.
  split.
  - intros Hfail.
    replace ((rc0 =? 1) && (nth 0 buffer0 0 =? 0)) with false in Hrun.
    + rewrite Hrun. reflexivity.
    + destruct (Z.eqb_spec rc0 1); destruct (Z.eqb_spec (nth 0 buffer0 0) 0);
        try reflexivity. exfalso. apply Hfail. split; assumption.
  - intros [Hrc Hb0]. rewrite Hrc, Hb0 in Hrun. cbn [Z.eqb Pos.eqb andb] in Hrun.
    split.
    + intros Hl. rewrite Hl in Hrun.
      cbn [Z.eqb Pos.eqb Z.leb Z.compare Pos.compare Pos.compare_cont andb]
        in Hrun.
      destruct (Z.leb_spec 25 size) as [Hfit | Hsmall]; rewrite Hrun;
        cbn [fst snd]; rewrite ?transfers_app, ?get_atr_calls_app;
        cbn [transfers filter is_transfer is_card_ctl length];
        rewrite ?app_nil_r, ?Hreset, ?H25;
        repeat apply conj; try reflexivity; intros; lia.
    + intros Hl.
      replace (len25 =? 25) with false in Hrun
        by (symmetry; apply Z.eqb_neq; exact Hl).
      destruct (Z.leb_spec 9 len9) as [Hlow | Hlow];
        destruct (Z.leb_spec len9 size) as [Hhigh | Hhigh];
        cbn [andb] in Hrun; rewrite Hrun;
        cbn [fst snd]; rewrite ?transfers_app, ?get_atr_calls_app;
        cbn [transfers filter is_transfer is_card_ctl length];
        rewrite ?app_nil_r, ?Hreset, ?H25, ?H9;
        repeat apply conj; try reflexivity; intros; try lia; try tauto.
Qed.

(** ** Opening the reader *)

(** C10.  [ikey2k_open] leaves the reader with the name
    "Rainbow Technologies iKey 2032" and one slot whatever its outcome, so
    also when it fails; it returns 0 or -1; when it fails the [device] field
    and the rest of the reader are as before; its first call is the attempt
    to open the device, and a handle that was obtained is closed on every
    failing exit (and kept, and stored in the reader, on success). *)
Theorem open_sets_name_and_nslots_first
    (reader : ifd_reader) (device_name : string) (w : host) :
  let run := ikey2k_open reader device_name w in
  let rc := fst (fst (fst run)) in
  let reader' := snd (fst (fst run)) in
  let evs := snd run in
  name reader' = "Rainbow Technologies iKey 2032"%string /\
  nslots reader' = 1 /\
  private reader' = private reader /\
  (rc = 0 \/ rc = -1) /\
  (rc <> 0 -> device reader' = device reader) /\
  hd_error evs = Some (DeviceOpen device_name (fst (ifd_device_open device_name w))) /\
  (forall dev : ifd_device,
     fst (ifd_device_open device_name w) = Some dev ->
     (rc <> 0 -> In (DeviceClose dev) evs) /\
     (rc = 0 -> device reader' = Some dev /\ ~ In (DeviceClose dev) evs)).
Proof.
  unfold ikey2k_open, bind, device_open, device_type, device_settings,
    device_set_parameters, device_close, ct_error, ret.
  destruct (ifd_device_open device_name w) as [[dev |] w1]; cbn [fst snd].
  - destruct (ifd_device_type dev w1 =? IFD_DEVICE_TYPE_USB); cbn [negb].
    + destruct (ifd_device_set_parameters dev _ w1) as [rc w2].
      destruct (rc <? 0); cbn; repeat apply conj; open_case.
    + cbn; repeat apply conj; open_case.
  - cbn; repeat apply conj; open_case.
Qed.

End Properties.

(** * Further properties *)

Lemma u16_range (z : Z) : 0 <= u16 z < 65536.
Proof.
  unfold u16. change 0xFFFF with (Z.ones 16).
  rewrite Z.land_ones by lia. apply Z.mod_pos_bound. lia.
Qed.

(** The closing steps for [ikey2k_do_send] on a buffer of any contents. *)

Ltac send_any :=
  cbn [Nat.add]; unfold bind, usb_control, ret;
  match goal with
  | |- context [ifd_usb_control ?a ?b ?c ?v ?i ?d ?l ?t ?w] =>
    exists v, i; cbv zeta;
    destruct (ifd_usb_control a b c v i d l t w) as [[? ?] ?]
  end;
  cbn [fst snd app];
  repeat apply conj; try reflexivity; try apply u16_range; try lia.

Section MoreProperties.

Context {HF : HostFramework}.

Lemma high_byte_of_field (a b : Z) :
  is_byte a -> Z.shiftr (a + 256 * b) 8 = b.
Proof.
  intros Ha. rewrite Z.shiftr_div_pow2 by lia. change (2 ^ 8) with 256.
  unfold is_byte in Ha.
  rewrite (Z.mul_comm 256 b), Z.div_add by lia.
  rewrite Z.div_small by lia. lia.
Qed.

Lemma header_bytes_fields (b0 b1 b2 b3 : Z) :
  is_byte b0 -> is_byte b2 ->
  header_bytes (b0 + 256 * b1) (b2 + 256 * b3) = [b0; b1; b2; b3].
Proof.
  intros H0 H2. unfold header_bytes.
  rewrite !low_byte_of_field, !high_byte_of_field by assumption.
  reflexivity.
Qed.

(** X1.  An input of fewer than four bytes is sent exactly as the same input
    padded with zero bytes to four: same [value], same [index], no payload.
    The device cannot tell, say, the one-byte input 01 from 01 00. *)
Theorem do_send_short_input_is_zero_padded
    (reader : ifd_reader) (cmd : ikey2k_command) (data : list Z) (w : host) :
  Forall is_byte data ->
  (length data <= 4)%nat ->
  ikey2k_do_send reader cmd data (Z.of_nat (length data)) w =
  ikey2k_do_send reader cmd (pad4 data) 4 w.
Proof.
  intros Hb Hlen.
  assert (Hpad : Forall is_byte (pad4 data)).
  { unfold pad4. apply Forall_app. split; [exact Hb |].
    apply Forall_forall. intros x Hx. apply repeat_spec in Hx. subst x.
    unfold is_byte. lia. }
  assert (Hpl : length (pad4 data) = 4%nat).
  { unfold pad4. rewrite length_app, repeat_length. lia. }
  rewrite do_send_run by (rewrite ?payload_all; auto; lia).
  rewrite (do_send_run reader cmd (pad4 data) 4).
  2: lia.
  2:{ unfold payload. rewrite firstn_all2 by (rewrite Hpl; simpl; lia).
      exact Hpad. }
  rewrite payload_all.
  assert (Hp4 : payload (pad4 data) 4 = pad4 data).
  { unfold payload. apply firstn_all2. rewrite Hpl. simpl. lia. }
  rewrite Hp4. clear Hp4 Hpad Hpl Hb.
  destruct data as [| b0 [| b1 [| b2 [| b3 [| b4 rest]]]]];
    try (simpl in Hlen; lia); reflexivity.
Qed.


(** X2.  Nothing of the input is lost: the low and high bytes of [value] and
    [index], followed by the payload, give the input back when cut to its
    length. *)
Theorem do_send_input_recoverable
    (reader : ifd_reader) (cmd : ikey2k_command) (data : list Z) (w : host) :
  Forall is_byte data ->
  exists value index rest len rc,
    events (ikey2k_do_send reader cmd data (Z.of_nat (length data))) w =
      [UsbControl (device reader) 0x41 (command_code cmd) value index rest
         len 1000 rc] /\
    firstn (length data) (header_bytes value index ++ payload rest len) = data.
Proof.
  intros Hb. unfold events.
  rewrite do_send_run by (rewrite ?payload_all; auto; lia).
  rewrite payload_all, skipn_min_4. cbv zeta. cbn [snd].
  do 5 eexists. split; [reflexivity |].
  assert (Hrest : payload (skipn 4 data)
                    (Z.max 0 (Z.of_nat (length data) - 4)) = skipn 4 data).
  { unfold payload. apply firstn_all2. rewrite length_skipn. lia. }
  rewrite Hrest. unfold send_value, send_index.
  destruct data as [| b0 [| b1 [| b2 [| b3 rest]]]]; split_bytes;
    cbn [nth skipn length];
    rewrite header_bytes_fields by (unfold is_byte; lia).
  - reflexivity.
  - reflexivity.
  - reflexivity.
  - reflexivity.
  - cbn [app firstn]. rewrite firstn_all. reflexivity.
Qed.

(** X3.  For a length [len] >= 0 and a buffer that holds at least the
    min(4, len) bytes the header takes (the length may reach past the end of
    the buffer, as it does in a card-control call with more than 254 input
    bytes), [ikey2k_do_send] makes exactly one host-to-device transfer, with
    request type 0x41, the code of the command and a timeout of 1000; it
    advances the pointer by min(4, len) bytes and gives the transfer the rest
    of the length, [value] and [index] fit in 16 bits, and the result of the
    transfer is returned as it is. *)
Theorem do_send_always_one_transfer
    (reader : ifd_reader) (cmd : ikey2k_command) (data : list Z) (len : Z)
    (w : host) :
  0 <= len ->
  Z.min 4 len <= Z.of_nat (length data) ->
  exists value index,
    let r := ifd_usb_control (device reader) 0x41 (command_code cmd) value
               index (skipn (Z.to_nat (Z.min 4 len)) data)
               (len - Z.min 4 len) 1000 w in
    ikey2k_do_send reader cmd data len w =
      (fst (fst r), snd r,
       [UsbControl (device reader) 0x41 (command_code cmd) value index
          (skipn (Z.to_nat (Z.min 4 len)) data)
          (len - Z.min 4 len) 1000 (fst (fst r))]) /\
    0 <= value < 65536 /\ 0 <= index < 65536.
Proof.
  intros Hlen Hheld.
  unfold ikey2k_do_send.
  assert (Hcase : len = 0 \/ len = 1 \/ len = 2 \/ len = 3 \/ 4 <= len)
    by lia.
  assert (Htl : forall l : list Z, tl l = skipn 1 l).
  { intros [| x l]; reflexivity. }
  destruct Hcase as [-> | [-> | [-> | [-> | Hge]]]].
  - send_steps.
    change (Z.to_nat (Z.min 4 0)) with 0%nat.
    change (0 - Z.min 4 0) with 0.
    cbn [skipn]. send_any.
  - send_steps. rewrite !Htl, ?skipn_skipn.
    change (Z.to_nat (Z.min 4 1)) with 1%nat.
    change (1 - Z.min 4 1) with (1 - 1).
    send_any.
  - send_steps. rewrite !Htl, ?skipn_skipn.
    change (Z.to_nat (Z.min 4 2)) with 2%nat.
    change (2 - Z.min 4 2) with (2 - 1 - 1).
    send_any.
  - send_steps. rewrite !Htl, ?skipn_skipn.
    change (Z.to_nat (Z.min 4 3)) with 3%nat.
    change (3 - Z.min 4 3) with (3 - 1 - 1 - 1).
    send_any.
  - send_steps. rewrite !Htl, ?skipn_skipn.
    replace (Z.to_nat (Z.min 4 len)) with 4%nat by lia.
    replace (len - Z.min 4 len) with (len - 1 - 1 - 1 - 1) by lia.
    send_any.
Qed.

Lemma u8_mod (z : Z) : u8 z = z mod 256.
Proof.
  unfold u8. change 0xFF with (Z.ones 8). rewrite Z.land_ones by lia.
  reflexivity.
Qed.

(** X5.  For an input of at most 254 bytes the card-control transfer has
    [value] = sub-command + 256 * (arg1 mod 256), [index] = the first two
    input bytes, and carries as payload exactly the input bytes after the
    second: nothing of the unwritten part of the scratch buffer is sent. *)
Theorem do_card_cmd_sends_header_and_input_only
    (reader : ifd_reader) (cmd : ikey2k_card_command) (arg1 : Z)
    (indata : list Z) (outdata : option (list Z)) (outlen : Z) (w : host) :
  Forall is_byte indata ->
  (length indata <= 254)%nat ->
  let inlen := Z.of_nat (length indata) in
  exists data rc,
    hd_error (events (ikey2k_do_card_cmd reader cmd arg1 indata inlen
                        outdata outlen) w) =
      Some (UsbControl (device reader) 0x41 22
              (card_command_code cmd + 256 * (arg1 mod 256))
              (nth 0 indata 0 + 256 * nth 1 indata 0)
              data (Z.max 0 (inlen - 2)) 1000 rc) /\
    payload data (Z.max 0 (inlen - 2)) = skipn 2 indata.
Proof.
  intros Hb Hfit inlen.
  unfold events, ikey2k_do_card_cmd.
  pose proof (card_ctl_frame_buf cmd arg1 indata) as Hbuf.
  rewrite (firstn_all2 (n := 254) indata) in Hbuf by exact Hfit.
  fold inlen in Hbuf |- *.
  revert Hbuf.
  generalize (skipn (2 + Nat.min 254 (length indata)) (auto_array 256)).
  intros g Hbuf. rewrite Hbuf. clear Hbuf.
  assert (Hin : 0 <= inlen <= 254) by (unfold inlen; lia).
  assert (Hbytes : payload (card_command_code cmd :: u8 arg1 :: indata ++ g)
                     (inlen + 2) =
                   card_command_code cmd :: u8 arg1 :: indata).
  { unfold payload, inlen.
    replace (Z.to_nat (Z.of_nat (length indata) + 2))
      with (S (S (length indata))) by lia.
    change (firstn (S (S ?n)) (?x :: ?y :: ?l)) with (x :: y :: firstn n l).
    rewrite firstn_app, firstn_all, Nat.sub_diag, firstn_O, app_nil_r.
    reflexivity. }
  unfold bind.
  rewrite do_send_run.
  2: lia.
  2:{ rewrite Hbytes.
      apply Forall_cons; [apply card_command_code_byte |].
      apply Forall_cons; [apply u8_is_byte | exact Hb]. }
  rewrite Hbytes. unfold send_value, send_index.
  change (nth 0 (?x :: ?l) 0) with x.
  change (nth 1 (?x :: ?y :: ?l) 0) with y.
  change (nth 2 (?x :: ?y :: ?l) 0) with (nth 0 l 0).
  change (nth 3 (?x :: ?y :: ?l) 0) with (nth 1 l 0).
  cbv zeta. cbn [fst snd]. rewrite u8_mod.
  change (command_code IKEY2K_CMD_CARD_CTL) with 22.
  replace (Z.max 0 (inlen + 2 - 4)) with (Z.max 0 (inlen - 2)) by lia.
  match goal with
  | |- context [ifd_usb_control ?a ?b ?c ?d ?e ?f ?g ?h ?w] =>
    destruct (ifd_usb_control a b c d e f g h w) as [[rc d'] w']
  end.
  exists (skipn (Z.to_nat (Z.min 4 (inlen + 2)))
            (card_command_code cmd :: arg1 mod 256 :: indata ++ g)), rc.
  split.
  - cbn [fst snd].
    match goal with
    | |- context [if ?c then _ else _] => destruct c
    end.
    + destruct (ikey2k_do_recv _ _ _ _ w') as [[[rc' out] w2] ev].
      reflexivity.
    + reflexivity.
  - unfold payload, inlen. clear Hbytes Hin.
    destruct indata as [| x0 [| x1 rest]].
    + reflexivity.
    + reflexivity.
    + replace (Z.to_nat (Z.min 4 (Z.of_nat (length (x0 :: x1 :: rest)) + 2)))
        with 4%nat by (simpl length; lia).
      replace (Z.to_nat (Z.max 0 (Z.of_nat (length (x0 :: x1 :: rest)) - 2)))
        with (length rest) by (simpl length; lia).
      cbn [skipn app].
      rewrite firstn_app, firstn_all, Nat.sub_diag, firstn_O, app_nil_r.
      reflexivity.
Qed.

(** X6.  The three codes of the validator tell which check failed first:
    -1 for the length or byte 0, -2 for byte 1 when those are right, -3 for
    byte 0x0C when all before it is right. *)
Theorem parse_desc_codes (reader : ifd_reader) (desc : list Z) (desclen : Z) :
  let bad_length :=
    desclen < 6 \/ desclen > 0x40 \/ nth 0 desc 0 <> desclen in
  let bad_tag := nth 1 desc 0 < 0x60 \/ nth 1 desc 0 > 0x6F in
  let bad_hint :=
    desclen > 0xC /\ nth 0xC desc 0 <> 9 /\ nth 0xC desc 0 <> 25 in
  (ikey2k_parse_desc reader desc desclen = Some (-1) <-> bad_length) /\
  (ikey2k_parse_desc reader desc desclen = Some (-2) <->
   ~ bad_length /\ bad_tag) /\
  (ikey2k_parse_desc reader desc desclen = Some (-3) <->
   ~ bad_length /\ ~ bad_tag /\ bad_hint).
Proof.
  cbv zeta. unfold ikey2k_parse_desc.
  destruct (Z.ltb_spec desclen 6); cbn [orb].
  { repeat split; try discriminate; try lia; intros; tauto || lia. }
  destruct (Z.gtb_spec desclen 0x40); cbn [orb].
  { repeat split; try discriminate; try lia; intros; tauto || lia. }
  destruct (Z.eqb_spec (nth 0 desc 0) desclen); cbn [negb orb].
  2:{ repeat split; try discriminate; try tauto; intros; tauto. }
  destruct (Z.ltb_spec (nth 1 desc 0) 0x60); cbn [orb].
  { repeat split; try discriminate; try lia; intros; lia. }
  destruct (Z.gtb_spec (nth 1 desc 0) 0x6F); cbn [orb].
  { repeat split; try discriminate; try lia; intros; lia. }
  destruct (Z.gtb_spec desclen 0xC); cbn [andb];
    [destruct (Z.eqb_spec (nth 12 desc 0) 9); cbn [negb andb];
     [| destruct (Z.eqb_spec (nth 12 desc 0) 25); cbn [negb andb]] |];
    repeat split; try discriminate; try lia; intros; try lia; try tauto.
Qed.

Lemma nth_within_prefix (desc desc' : list Z) (k i : nat) :
  firstn k desc = firstn k desc' -> (i < k)%nat ->
  nth i desc 0 = nth i desc' 0.
Proof.
  intros Heq Hi.
  pose proof (nth_firstn k desc i 0) as H1.
  pose proof (nth_firstn k desc' i 0) as H2.
  apply Nat.ltb_lt in Hi. rewrite Hi in H1, H2.
  rewrite <- H1, <- H2, Heq. reflexivity.
Qed.

(** X7.  The validator reads no byte at or after [desclen]: two buffers
    that agree on their first [desclen] bytes get the same outcome. *)
Theorem parse_desc_reads_within_length
    (reader : ifd_reader) (desc desc' : list Z) (desclen : Z) :
  firstn (Z.to_nat desclen) desc = firstn (Z.to_nat desclen) desc' ->
  ikey2k_parse_desc reader desc desclen =
  ikey2k_parse_desc reader desc' desclen.
Proof.
  intros Heq. unfold ikey2k_parse_desc.
  destruct (Z.ltb_spec desclen 6) as [Hshort | Hlong]; cbn [orb].
  { reflexivity. }
  rewrite (nth_within_prefix desc desc' _ 0 Heq) by lia.
  rewrite (nth_within_prefix desc desc' _ 1 Heq) by lia.
  destruct (Z.gtb_spec desclen 0xC) as [Hhint | Hnohint].
  - rewrite (nth_within_prefix desc desc' _ 12 Heq) by lia. reflexivity.
  - cbn [andb]. reflexivity.
Qed.

(** X8.  On the runs whose outcome the program defines, those where the
    receive returns a length <= 0 or the validator rejects the received
    descriptor, [ikey2k_activate] returns -1 exactly when the length is <= 0
    and reports its error exactly then, once; the host is left as the one
    transfer left it. *)
Theorem activate_fails_only_on_empty_receive
    (reader : ifd_reader) (w : host) :
  let r := ifd_usb_control (device reader) 0xC1 0 0 0 (auto_array 256) 256
             1000 w in
  let desclen := fst (fst r) in
  let buffer := snd (fst r) in
  desclen <= 0 \/ ~ descriptor_well_formed buffer desclen ->
  (result (ikey2k_activate reader) w = Some (-1) <-> desclen <= 0) /\
  (result (ikey2k_activate reader) w = Some 0 <-> 0 < desclen) /\
  filter is_error (events (ikey2k_activate reader) w) =
    (if desclen <=? 0 then [CtError "ikey2k: failed to reset reader" []]
     else []) /\
  final (ikey2k_activate reader) w = snd r.
Proof.
  intros r desclen buffer.
  unfold result, events, final, ikey2k_activate, ikey2k_do_recv, usb_control,
    bind.
  cbn [command_code]. subst desclen buffer. fold r.
  destruct r as [[desclen buffer] w1]. cbn [fst snd].
  intros Hdefined.
  destruct (Z.leb_spec desclen 0) as [Hle | Hgt].
  - cbn. repeat apply conj; try reflexivity; intros; try discriminate; lia.
  - destruct Hdefined as [Hle | Hbad]; [lia |].
    destruct (parse_desc_cases reader buffer desclen) as [H | [H | [H | H]]];
      rewrite H.
    + exfalso. apply Hbad. apply (parse_desc_none_iff reader). exact H.
    + cbn. repeat apply conj; try reflexivity; intros; try discriminate; lia.
    + cbn. repeat apply conj; try reflexivity; intros; try discriminate; lia.
    + cbn. repeat apply conj; try reflexivity; intros; try discriminate; lia.
Qed.

Lemma card_cmd_no_input_events (reader : ifd_reader)
    (sub : ikey2k_card_command) (arg1 : Z) (indata : list Z)
    (outdata : option (list Z)) (outlen : Z) (w : host) :
  let evs :=
    snd (ikey2k_do_card_cmd reader sub arg1 indata 0 outdata outlen w) in
  Forall (card_exchange_event (device reader)) evs /\
  (1 <= length evs <= 2)%nat /\
  transfers evs = evs /\
  filter is_error evs = [].
Proof.
  cbv zeta. rewrite do_card_cmd_no_input. cbv zeta.
  match goal with
  | |- context [if ?c then _ else _] => destruct c
  end; cbn [snd length transfers filter is_transfer is_error];
    repeat apply conj; try reflexivity; try lia;
    repeat (apply Forall_cons; [cbn; intuition lia |]); apply Forall_nil.
Qed.

(** X9.  [ikey2k_deactivate] returns 0 when the card-reset sub-command
    returns 1 with response byte 0 equal to 0, and otherwise returns -1 after
    reporting an error; either way it makes only the one or two transfers of
    that sub-command and no GET_ATR. *)
Theorem deactivate_outcome (reader : ifd_reader) (w : host) :
  let buffer := auto_array 2 in
  let reset :=
    ikey2k_do_card_cmd reader IKEY2K_CARDCMD_RESET 0 buffer 0 (Some buffer) 2
      w in
  let rc := fst (fst (fst reset)) in
  let byte0 := nth 0 (deref (snd (fst (fst reset))) buffer) 0 in
  let run := ikey2k_deactivate reader w in
  ((fst (fst run) = 0 /\ rc = 1 /\ byte0 = 0 /\ snd run = snd reset) \/
   (fst (fst run) = -1 /\ ~ (rc = 1 /\ byte0 = 0) /\
    snd run = snd reset ++ [CtError "ikey2k: failed to reset card" []])) /\
  snd (fst run) = snd (fst reset) /\
  Forall (card_exchange_event (device reader)) (transfers (snd run)) /\
  (1 <= length (transfers (snd run)) <= 2)%nat /\
  filter (is_card_ctl IKEY2K_CARDCMD_GET_ATR) (snd run) = [].
Proof.
  intros buffer reset rc byte0 run.
  pose proof (card_cmd_no_input_events reader IKEY2K_CARDCMD_RESET 0 buffer
                (Some buffer) 2 w) as (Hall & Hlen & Htr & _).
  pose proof (card_cmd_sub_transfers reader IKEY2K_CARDCMD_RESET
                IKEY2K_CARDCMD_GET_ATR 0 buffer (Some buffer) 2 w) as Hnone.
  unfold events in Hnone. cbn [card_command_code Z.eqb] in Hnone.
  apply length_zero_iff_nil in Hnone.
  fold reset in Hall, Hlen, Htr, Hnone.
  subst run. unfold ikey2k_deactivate, bind. fold buffer. fold reset.
  subst rc byte0.
  destruct reset as [[[rc out] w1] evs]. cbn [fst snd] in *.
  destruct Hlen as [Hl1 Hl2].
  destruct (Z.eqb_spec rc 1) as [Hrc | Hrc]; cbn [negb orb];
    [destruct (Z.eqb_spec (nth 0 (deref out buffer) 0) 0) as [Hb | Hb];
     cbn [negb] |];
    unfold ct_error, ret; cbn [fst snd app];
    rewrite ?app_nil_r, ?transfers_app, ?filter_app, ?Htr, ?Hnone;
    cbn [transfers filter is_transfer is_card_ctl app];
    rewrite ?app_nil_r.
  - split; [left; auto | repeat apply conj; auto].
  - split; [right | repeat apply conj; auto].
    repeat apply conj; auto. intros [_ H]. contradiction.
  - split; [right | repeat apply conj; auto].
    repeat apply conj; auto. intros [H _]. contradiction.
Qed.


(** The events of a run of [ikey2k_card_reset]: those of one, two or three
    card sub-commands, followed by the error report when it fails. *)
Lemma card_reset_events (reader : ifd_reader) (slot : Z) (atr : list Z)
    (size : Z) (w : host) :
  let run := ikey2k_card_reset reader slot atr size w in
  let failure := CtError "ikey2k: failed to activate token" [] in
  exists evs : list event,
    Forall (card_exchange_event (device reader)) evs /\
    (1 <= length evs <= 6)%nat /\
    transfers evs = evs /\
    filter is_error evs = [] /\
    ((fst (fst (fst run)) = -1 /\ snd (fst (fst run)) = atr /\
      snd run = evs ++ [failure]) \/
     (9 <= fst (fst (fst run)) <= size /\ snd run = evs)).
Proof.
  intros run failure. subst run. rewrite card_reset_run. cbv zeta.
  set (buffer := auto_array 256).
  pose proof (card_cmd_no_input_events reader IKEY2K_CARDCMD_RESET 0 buffer
                (Some buffer) 2 w) as H0.
  cbv zeta in H0.
  destruct (ikey2k_do_card_cmd reader IKEY2K_CARDCMD_RESET 0 buffer 0
              (Some buffer) 2 w) as [[[rc0 out0] w0] ev0].
  cbn [fst snd] in *. set (buffer0 := deref out0 buffer).
  pose proof (card_cmd_no_input_events reader IKEY2K_CARDCMD_GET_ATR 25
                buffer0 (Some buffer0) 25 w0) as H25.
  cbv zeta in H25.
  destruct (ikey2k_do_card_cmd reader IKEY2K_CARDCMD_GET_ATR 25 buffer0 0
              (Some buffer0) 25 w0) as [[[len25 out25] w25] ev25].
  cbn [fst snd] in *. set (buffer25 := deref out25 buffer0).
  pose proof (card_cmd_no_input_events reader IKEY2K_CARDCMD_GET_ATR 9
                buffer25 (Some buffer25) 9 w25) as H9.
  cbv zeta in H9.
  destruct (ikey2k_do_card_cmd reader IKEY2K_CARDCMD_GET_ATR 9 buffer25 0
              (Some buffer25) 9 w25) as [[[len9 out9] w9] ev9].
  cbn [fst snd] in *.
  destruct H0 as (A0 & [L0 U0] & T0 & E0).
  destruct H25 as (A25 & [L25 U25] & T25 & E25).
  destruct H9 as (A9 & [L9 U9] & T9 & E9).
  destruct ((rc0 =? 1) && (nth 0 buffer0 0 =? 0)).
  2:{ exists ev0. cbn [fst snd].
      repeat apply conj; auto; try lia. }
  destruct (len25 =? 25).
  - exists (ev0 ++ ev25).
    rewrite transfers_app, filter_app, length_app, T0, T25, E0, E25.
    destruct (Z.leb_spec 9 25) as [_ | Habs]; [| lia].
    destruct (Z.leb_spec 25 size) as [Hfit | Hsmall]; cbn [andb fst snd];
      repeat apply conj; auto; try lia;
      try (apply Forall_app; split; assumption);
      try (right; split; [lia | reflexivity]).
  - exists (ev0 ++ ev25 ++ ev9).
    rewrite !transfers_app, !filter_app, !length_app, T0, T25, T9, E0, E25, E9.
    destruct (Z.leb_spec 9 len9) as [Hlow | Hlow];
      destruct (Z.leb_spec len9 size) as [Hhigh | Hhigh]; cbn [andb fst snd];
      repeat apply conj; auto; try lia;
      try (apply Forall_app; split;
           [assumption | apply Forall_app; split; assumption]);
      try (right; split; [lia | reflexivity]);
      try (left; rewrite <- ?app_assoc; auto).
Qed.


(** X10.  [ikey2k_card_reset] returns either -1, with the caller's buffer
    untouched and exactly one error reported, or a length in [9, size], with
    no error reported. *)
Theorem card_reset_result_bounds
    (reader : ifd_reader) (slot : Z) (atr : list Z) (size : Z) (w : host) :
  let run := ikey2k_card_reset reader slot atr size w in
  let rc := fst (fst (fst run)) in
  (rc = -1 /\ snd (fst (fst run)) = atr /\
   filter is_error (snd run) =
     [CtError "ikey2k: failed to activate token" []]) \/
  (9 <= rc <= size /\ filter is_error (snd run) = []).
Proof.
  cbv zeta.
  destruct (card_reset_events reader slot atr size w)
    as (evs & _ & _ & _ & Herr & [(Hrc & Hatr & Hev) | (Hrc & Hev)]).
  - left. rewrite Hev, filter_app, Herr. auto.
  - right. rewrite Hev. auto.
Qed.

(** X11.  [ikey2k_card_reset] makes between one and six transfers, all on
    the reader's device with a timeout of 1000, each either a card-control
    send with index 0 and no payload or a GET_RESPONSE receive with value 0
    and index 0. *)
Theorem card_reset_transfer_discipline
    (reader : ifd_reader) (slot : Z) (atr : list Z) (size : Z) (w : host) :
  let evs := snd (ikey2k_card_reset reader slot atr size w) in
  Forall (card_exchange_event (device reader)) (transfers evs) /\
  (1 <= length (transfers evs) <= 6)%nat.
Proof.
  cbv zeta.
  destruct (card_reset_events reader slot atr size w)
    as (evs & Hall & Hlen & Htr & _ & [(_ & _ & Hev) | (_ & Hev)]);
    rewrite Hev, ?transfers_app, Htr; cbn [transfers filter is_transfer];
    rewrite ?app_nil_r; auto.
Qed.

(** X12.  When the send succeeds and a non-zero capacity is asked for,
    [ikey2k_send] followed by [ikey2k_recv] is [ikey2k_do_cmd] for the
    card-I/O command: same transfers, same result, same host state. *)
Theorem send_then_recv_is_do_cmd
    (reader : ifd_reader) (dad dad' : Z) (buffer : list Z) (len : Z)
    (out : list Z) (outlen timeout : Z) (w : host) :
  0 <= fst (fst (ikey2k_send reader dad buffer len w)) ->
  outlen <> 0 ->
  ikey2k_do_cmd reader IKEY2K_CMD_CARD_IO buffer len (Some out) outlen w =
  let '((rc, out'), w', evs) :=
    bind (ikey2k_send reader dad buffer len)
      (fun _ => ikey2k_recv reader dad' out outlen timeout) w in
  ((rc, Some out'), w', evs).
Proof.
  unfold ikey2k_send, ikey2k_recv, ikey2k_do_card_send, ikey2k_do_card_recv,
    ikey2k_do_cmd, bind.
  intros Hrc Hout.
  destruct (ikey2k_do_send reader IKEY2K_CMD_CARD_IO buffer len w)
    as [[rc w1] evs].
  cbn [fst snd] in Hrc.
  replace (rc >=? 0) with true by (symmetry; rewrite Z.geb_leb; apply Z.leb_le; lia).
  unfold output_requested.
  replace (outlen =? 0) with false by (symmetry; apply Z.eqb_neq; exact Hout).
  cbn [negb andb deref].
  destruct (ikey2k_do_recv reader IKEY2K_CMD_GET_RESPONSE out outlen w1)
    as [[[rc' out'] w2] evs'].
  cbn. rewrite app_nil_r. reflexivity.
Qed.

(** X13.  [ikey2k_open] returns 0 exactly when the device opens, is a USB
    device and accepts its own settings with the USB interface set to 0; it
    then has made these three calls and no other, and the reader holds the
    handle. *)
Theorem open_succeeds_iff
    (reader : ifd_reader) (device_name : string) (w : host) :
  let opened := ifd_device_open device_name w in
  let run := ikey2k_open reader device_name w in
  (fst (fst (fst run)) = 0 <->
   exists dev : ifd_device,
     fst opened = Some dev /\
     ifd_device_type dev (snd opened) = IFD_DEVICE_TYPE_USB /\
     0 <= fst (ifd_device_set_parameters dev
                 (set_usb_interface (settings dev (snd opened)) 0)
                 (snd opened))) /\
  (forall dev : ifd_device,
     fst opened = Some dev ->
     ifd_device_type dev (snd opened) = IFD_DEVICE_TYPE_USB ->
     let params := set_usb_interface (settings dev (snd opened)) 0 in
     let configured := ifd_device_set_parameters dev params (snd opened) in
     0 <= fst configured ->
     run =
       ((0, mkReader "Rainbow Technologies iKey 2032" 1 (Some dev)
              (private reader)),
        snd configured,
        [DeviceOpen device_name (Some dev);
         DeviceType dev IFD_DEVICE_TYPE_USB;
         DeviceSetParameters dev params (fst configured)])).
Proof.
  cbv zeta.
  unfold ikey2k_open, bind, device_open, device_type, device_settings,
    device_set_parameters, device_close, ct_error, ret.
  destruct (ifd_device_open device_name w) as [[dev |] w1]; cbn [fst snd].
  2:{ split.
      - split; [discriminate | intros (d & Hd & _); discriminate Hd].
      - intros d Hd. discriminate Hd. }
  destruct (Z.eqb_spec (ifd_device_type dev w1) IFD_DEVICE_TYPE_USB)
    as [Hty | Hty]; cbn [negb].
  2:{ split.
      - split; [discriminate |].
        intros (d & Hd & Ht & _). injection Hd as <-. contradiction.
      - intros d Hd Ht. injection Hd as <-. contradiction. }
  destruct (ifd_device_set_parameters dev
              (set_usb_interface (settings dev w1) 0) w1) as [rcp w2] eqn:Hsp.
  destruct (Z.ltb_spec rcp 0) as [Hneg | Hok]; cbn [fst snd app].
  - split.
    + split; [discriminate |].
      intros (d & Hd & _ & Hr). injection Hd as <-. rewrite Hsp in Hr.
      cbn in Hr. lia.
    + intros d Hd _ Hr. injection Hd as <-. rewrite Hsp in Hr. cbn in Hr. lia.
  - split.
    + split; [intros _ | reflexivity].
      exists dev. rewrite Hsp. auto.
    + intros d Hd _ Hr. injection Hd as <-. rewrite Hsp, Hty. reflexivity.
Qed.

(** X14.  The failing exits of [ikey2k_open]: a device that cannot be
    opened gives -1 with no error reported; a device that is not a USB device
    is reported and closed without its parameters being set; a device that
    refuses the parameters is reported and then closed. *)
Theorem open_failure_traces
    (reader : ifd_reader) (device_name : string) (w : host) :
  let opened := ifd_device_open device_name w in
  let run := ikey2k_open reader device_name w in
  let named :=
    mkReader "Rainbow Technologies iKey 2032" 1 (device reader)
      (private reader) in
  (fst opened = None ->
   run = ((-1, named), snd opened, [DeviceOpen device_name None])) /\
  (forall dev : ifd_device,
     fst opened = Some dev ->
     ifd_device_type dev (snd opened) <> IFD_DEVICE_TYPE_USB ->
     run =
       ((-1, named), ifd_device_close dev (snd opened),
        [DeviceOpen device_name (Some dev);
         DeviceType dev (ifd_device_type dev (snd opened));
         CtError "ikey2k: device %s is not a USB device" [device_name];
         DeviceClose dev])) /\
  (forall dev : ifd_device,
     fst opened = Some dev ->
     ifd_device_type dev (snd opened) = IFD_DEVICE_TYPE_USB ->
     let params := set_usb_interface (settings dev (snd opened)) 0 in
     let configured := ifd_device_set_parameters dev params (snd opened) in
     fst configured < 0 ->
     run =
       ((-1, named), ifd_device_close dev (snd configured),
        [DeviceOpen device_name (Some dev);
         DeviceType dev IFD_DEVICE_TYPE_USB;
         DeviceSetParameters dev params (fst configured);
         CtError "ikey2k: setting parameters failed" [device_name];
         DeviceClose dev])).
Proof.
  cbv zeta.
  unfold ikey2k_open, bind, device_open, device_type, device_settings,
    device_set_parameters, device_close, ct_error, ret.
  destruct (ifd_device_open device_name w) as [[dev |] w1]; cbn [fst snd].
  2:{ repeat apply conj; [reflexivity | |]; intros d Hd; discriminate Hd. }
  repeat apply conj.
  - discriminate.
  - intros d Hd Hty. injection Hd as <-.
    replace (ifd_device_type dev w1 =? IFD_DEVICE_TYPE_USB) with false
      by (symmetry; apply Z.eqb_neq; exact Hty).
    reflexivity.
  - intros d Hd Hty Hr. injection Hd as <-.
    rewrite Hty, Z.eqb_refl. cbn [negb].
    destruct (ifd_device_set_parameters dev
                (set_usb_interface (settings dev w1) 0) w1) as [rcp w2].
    cbn [fst snd] in *.
    replace (rcp <? 0) with true by (symmetry; apply Z.ltb_lt; exact Hr).
    reflexivity.
Qed.

(** X15.  With [inlen] = 0 the input pointer is not read: the call makes the
    same transfers and returns the same result whatever [indata] is, the
    send carrying the two header bytes in [value], index 0 and no payload. *)
Theorem card_cmd_without_input_ignores_indata
    (reader : ifd_reader) (sub : ikey2k_card_command) (arg1 : Z)
    (indata indata' : list Z) (outdata : option (list Z)) (outlen : Z)
    (w : host) :
  ikey2k_do_card_cmd reader sub arg1 indata 0 outdata outlen w =
  ikey2k_do_card_cmd reader sub arg1 indata' 0 outdata outlen w /\
  exists rest rc,
    hd_error (events (ikey2k_do_card_cmd reader sub arg1 indata 0 outdata
                        outlen) w) =
    Some (UsbControl (device reader) 0x41 22
            (card_command_code sub + 256 * (arg1 mod 256)) 0 rest 0 1000 rc).
Proof.
  split.
  - rewrite !do_card_cmd_no_input. reflexivity.
  - unfold events. rewrite do_card_cmd_no_input. cbv zeta.
    rewrite u8_mod. do 2 eexists.
    match goal with
    | |- context [if ?c then _ else _] => destruct c
    end; reflexivity.
Qed.

(** X16.  Power-down and card reset begin alike: the first transfer of
    [ikey2k_deactivate] and of [ikey2k_card_reset] is the same card-control
    send, sub-command RESET with argument 0, so [value] 0, index 0 and no
    payload. *)
Theorem deactivate_starts_like_card_reset
    (reader : ifd_reader) (slot : Z) (atr : list Z) (size : Z) (w : host) :
  exists rest rc,
    hd_error (snd (ikey2k_deactivate reader w)) =
      Some (UsbControl (device reader) 0x41 22 0 0 rest 0 1000 rc) /\
    hd_error (snd (ikey2k_card_reset reader slot atr size w)) =
      Some (UsbControl (device reader) 0x41 22 0 0 rest 0 1000 rc).
Proof.
  assert (Hhead : forall (buffer : list Z) (capacity : Z),
            exists tail,
              snd (ikey2k_do_card_cmd reader IKEY2K_CARDCMD_RESET 0 buffer 0
                     (Some buffer) capacity w) =
              UsbControl (device reader) 0x41 22 0 0
                (skipn 2 (auto_array 256)) 0 1000
                (fst (fst (ifd_usb_control (device reader) 0x41 22 0 0
                             (skipn 2 (auto_array 256)) 0 1000 w)))
              :: tail).
  { intros buffer capacity. rewrite do_card_cmd_no_input. cbv zeta.
    change (card_command_code IKEY2K_CARDCMD_RESET + 256 * u8 0) with 0.
    match goal with
    | |- context [if ?c then _ else _] => destruct c
    end; eexists; reflexivity. }
  assert (Hbind : forall (A B : Type) (m : M A) (f : A -> M B),
            snd (bind m f w) =
            snd (m w) ++ snd (f (fst (fst (m w))) (snd (fst (m w))))).
  { intros A B m f. unfold bind. destruct (m w) as [[a w1] e1].
    cbn [fst snd]. destruct (f a w1) as [[b w2] e2]. reflexivity. }
  do 2 eexists. split.
  - unfold ikey2k_deactivate. rewrite Hbind.
    destruct (Hhead (auto_array 2) 2) as [tail Htail].
    rewrite Htail. reflexivity.
  - unfold ikey2k_card_reset. rewrite Hbind.
    destruct (Hhead (auto_array 256) 2) as [tail Htail].
    rewrite Htail. reflexivity.
Qed.

End MoreProperties.

(** * Runs on the simulated host *)

Module Runs.

Import Sim.

Lemma input255_bytes : Forall is_byte input255.
Proof.
  apply Forall_forall. intros x Hx. apply repeat_spec in Hx. subst x.
  unfold is_byte. lia.
Defined.

(** C1 at a concrete device: the descriptor of the source's comment with its
    byte 1 changed to 0x50 is rejected by the validator with -2, and
    activation succeeds. *)
Lemma activate_bad_tag_descriptor :
  ikey2k_parse_desc reader0
    (deliver (auto_array 256) bad_tag_desc) 13 = Some (-2) /\
  result (ikey2k_activate reader0) (scripted [(13, bad_tag_desc)]) = Some 0.
Proof.
  split; [vm_compute; reflexivity |].
  apply (activate_succeeds_on_rejected_descriptor reader0
           (scripted [(13, bad_tag_desc)])).
  - vm_compute. reflexivity.
  - intros (_ & _ & Htag & _). vm_compute in Htag.
    destruct Htag as [Htag _]. apply Htag. reflexivity.
Defined.

(** C2 at a 255-byte input: the send is given 257 bytes of a 256-byte
    buffer. *)
Lemma card_cmd_255_byte_input :
  snd (card_ctl_frame IKEY2K_CARDCMD_EXCHANGE 0 input255 255) = 257 /\
  length (fst (card_ctl_frame IKEY2K_CARDCMD_EXCHANGE 0 input255 255)) =
    256%nat /\
  2 + Z.min 254 255 = 256.
Proof.
  destruct (card_cmd_sends_untruncated_length reader0
              IKEY2K_CARDCMD_EXCHANGE 0 input255 None 0 (scripted [])
              input255_bytes ltac:(vm_compute; lia))
    as (_ & Hlen & Hsnd & Hmin & _).
  split; [exact Hsnd | split; [exact Hlen | exact Hmin]].
Defined.

(** C5 at a six-byte input. *)
Lemma do_send_six_bytes :
  ikey2k_do_send reader0 IKEY2K_CMD_WRITE [1; 2; 3; 4; 5; 6] 6
    (scripted [(2, [])]) =
  (2, scripted [],
   [UsbControl (Some tt) 0x41 8 (1 + 256 * 2) (3 + 256 * 4) [5; 6] 2 1000 2]).
Proof.
  assert (Hb : Forall is_byte [1; 2; 3; 4; 5; 6]).
  { repeat (apply Forall_cons; [unfold is_byte; lia |]). apply Forall_nil. }
  exact (proj1 (do_send_header_then_payload reader0 IKEY2K_CMD_WRITE
                  [1; 2; 3; 4; 5; 6] (scripted [(2, [])]) Hb)).
Defined.

(** C7 as the spec has it fails: on a device that answers every transfer
    with the descriptor, activation makes one transfer, a receive under
    RESET, where an execute of RESET makes a send and a receive under
    GET_RESPONSE. *)
Lemma activate_is_not_an_execute_of_reset :
  let w := scripted [(13, example_desc); (13, example_desc)] in
  transfers (events (ikey2k_activate reader0) w) =
    [UsbControl (Some tt) 0xC1 0 0 0 (auto_array 256) 256 1000 13] /\
  transfers (events (ikey2k_do_cmd reader0 IKEY2K_CMD_RESET [] 0
                       (Some (auto_array 256)) 256) w) =
    [UsbControl (Some tt) 0x41 0 0 0 [] 0 1000 13;
     UsbControl (Some tt) 0xC1 1 0 0 (auto_array 256) 256 1000 13] /\
  transfers (events (ikey2k_activate reader0) w) <>
  transfers (events (ikey2k_do_cmd reader0 IKEY2K_CMD_RESET [] 0
                       (Some (auto_array 256)) 256) w).
Proof.
  cbv zeta. repeat apply conj.
  - vm_compute. reflexivity.
  - vm_compute. reflexivity.
  - vm_compute. discriminate.
Defined.

(** C7 as amended, at a device whose transfer fails. *)
Lemma activate_failed_receive :
  transfers (events (ikey2k_activate reader0) (scripted [])) =
    [UsbControl (Some tt) 0xC1 0 0 0 (auto_array 256) 256 1000 (-1)] /\
  result (ikey2k_activate reader0) (scripted []) = Some (-1).
Proof.
  destruct (@activate_single_reset_receive sim) as [decide H].
  destruct (H reader0 (scripted [])) as (Htr & Hfail & _).
  split; [exact Htr |].
  apply Hfail. vm_compute. discriminate.
Defined.

(** C8 at a device whose card reset returns no byte. *)
Lemma card_reset_no_response_byte :
  let w := scripted [(0, []); (0, [])] in
  fst (fst (ikey2k_card_reset reader0 0 (repeat 0 32) 32 w)) =
    (-1, repeat 0 32) /\
  filter (is_card_ctl IKEY2K_CARDCMD_GET_ATR)
    (snd (ikey2k_card_reset reader0 0 (repeat 0 32) 32 w)) = [].
Proof.
  cbv zeta.
  destruct (card_reset_stops_after_failed_reset reader0 0 (repeat 0 32) 32
              (scripted [(0, []); (0, [])]))
    as (Hres & _ & Hnone).
  - intros [Hrc _]. vm_compute in Hrc. discriminate Hrc.
  - split; [exact Hres | exact Hnone].
Defined.

(** C4 at a device that answers the 25-byte request with 9 bytes and the
    9-byte request with 9 bytes. *)
Lemma card_reset_falls_back_to_9 :
  let nine := [0x3b; 0x01; 0x02; 0x03; 0x04; 0x05; 0x06; 0x07; 0x08] in
  let w := scripted [(0, []); (1, [0]); (0, []); (9, nine); (0, []); (9, nine)] in
  fst (fst (fst (ikey2k_card_reset reader0 0 (repeat 0 32) 32 w))) = 9 /\
  length (filter (is_card_ctl IKEY2K_CARDCMD_GET_ATR)
            (snd (ikey2k_card_reset reader0 0 (repeat 0 32) 32 w))) = 2%nat.
Proof.
  cbv zeta.
  destruct (card_reset_atr_negotiation reader0 0 (repeat 0 32) 32
              (scripted [(0, []); (1, [0]); (0, []);
                         (9, [0x3b; 0x01; 0x02; 0x03; 0x04; 0x05; 0x06; 0x07;
                              0x08]);
                         (0, []);
                         (9, [0x3b; 0x01; 0x02; 0x03; 0x04; 0x05; 0x06; 0x07;
                              0x08])]))
    as [_ Hok].
  destruct Hok as [_ Hfallback]; [split; vm_compute; reflexivity |].
  destruct Hfallback as (_ & Hcalls & Haccept & _);
    [vm_compute; discriminate |].
  split; [| exact Hcalls].
  rewrite Haccept; [reflexivity |].
  vm_compute. split; discriminate.
Defined.

(** C10 at a device that is not a USB device. *)
Lemma open_not_usb_device :
  let w := mkSim [] true 1 0 in
  let run := ikey2k_open closed_reader "usb:0" w in
  fst (fst (fst run)) = -1 /\
  name (snd (fst (fst run))) = "Rainbow Technologies iKey 2032"%string /\
  nslots (snd (fst (fst run))) = 1 /\
  device (snd (fst (fst run))) = None /\
  In (DeviceClose tt) (snd run).
Proof.
  cbv zeta.
  destruct (open_sets_name_and_nslots_first closed_reader "usb:0"
              (mkSim [] true 1 0))
    as (Hname & Hslots & _ & _ & Hdev & _ & Hclose).
  destruct (Hclose tt eq_refl) as [Hclosed _].
  repeat apply conj.
  - vm_compute. reflexivity.
  - exact Hname.
  - exact Hslots.
  - apply Hdev. vm_compute. discriminate.
  - apply Hclosed. vm_compute. discriminate.
Defined.

(** C3 at the descriptor of the source's comment: it is well formed, and
    the validator returns no value for it. *)
Lemma parse_desc_example_descriptor :
  descriptor_well_formed example_desc 13 /\
  ikey2k_parse_desc reader0 example_desc 13 = None /\
  forall verdict : Z, ikey2k_parse_desc reader0 example_desc 13 <> Some verdict.
Proof.
  assert (Hwf : descriptor_well_formed example_desc 13).
  { unfold descriptor_well_formed, example_desc. cbn [nth].
    repeat split; try lia; try (right; right; reflexivity). }
  split; [exact Hwf |].
  exact (parse_desc_returns_nothing_when_well_formed reader0 example_desc 13
           Hwf).
Defined.

(** C6 at a device whose send fails, at one that answers with a status
    word, and with a null output pointer or a zero capacity. *)
Lemma do_cmd_four_runs :
  ikey2k_do_cmd reader0 IKEY2K_CMD_READ [1; 2] 2 (Some [0; 0]) 2
    (scripted []) =
    ((-1, Some [0; 0]), scripted [],
     [UsbControl (Some tt) 0x41 7 513 0 [] 0 1000 (-1)]) /\
  ikey2k_do_cmd reader0 IKEY2K_CMD_READ [1; 2] 2 (Some [0; 0]) 2
    (scripted [(0, []); (2, [0x90; 0x00])]) =
    ((2, Some [0x90; 0x00]), scripted [],
     [UsbControl (Some tt) 0x41 7 513 0 [] 0 1000 0;
      UsbControl (Some tt) 0xC1 1 0 0 [0; 0] 2 1000 2]) /\
  ikey2k_do_cmd reader0 IKEY2K_CMD_READ [1; 2] 2 None 2
    (scripted [(0, []); (2, [0x90; 0x00])]) =
    ((0, None), scripted [(2, [0x90; 0x00])],
     [UsbControl (Some tt) 0x41 7 513 0 [] 0 1000 0]) /\
  ikey2k_do_cmd reader0 IKEY2K_CMD_READ [1; 2] 2 (Some [0; 0]) 0
    (scripted [(0, []); (2, [0x90; 0x00])]) =
    ((0, Some [0; 0]), scripted [(2, [0x90; 0x00])],
     [UsbControl (Some tt) 0x41 7 513 0 [] 0 1000 0]).
Proof.
  assert (Hlen : 0 <= 2) by lia.
  assert (Hheld : Z.min 4 2 <= Z.of_nat (length [1; 2])) by (simpl; lia).
  repeat apply conj.
  - apply (proj1 (do_cmd_send_then_get_response reader0 IKEY2K_CMD_READ
                    [1; 2] 2 (Some [0; 0]) 2 (scripted []) Hlen Hheld)).
    vm_compute. reflexivity.
  - refine (proj1 (proj2 (do_cmd_send_then_get_response reader0
                            IKEY2K_CMD_READ [1; 2] 2 (Some [0; 0]) 2
                            (scripted [(0, []); (2, [0x90; 0x00])])
                            Hlen Hheld))
              _ [0; 0] eq_refl _).
    + vm_compute. discriminate.
    + discriminate.
  - apply (proj2 (proj2 (do_cmd_send_then_get_response reader0
                           IKEY2K_CMD_READ [1; 2] 2 None 2
                           (scripted [(0, []); (2, [0x90; 0x00])])
                           Hlen Hheld))).
    + vm_compute. discriminate.
    + left. reflexivity.
  - apply (proj2 (proj2 (do_cmd_send_then_get_response reader0
                           IKEY2K_CMD_READ [1; 2] 2 (Some [0; 0]) 0
                           (scripted [(0, []); (2, [0x90; 0x00])])
                           Hlen Hheld))).
    + vm_compute. discriminate.
    + right. reflexivity.
Defined.

End Runs.

(** * Further runs on the simulated host *)

Module MoreRuns.

Import Sim.

Lemma bytes_80_01 : Forall is_byte [0x80; 0x01].
Proof.
  repeat (apply Forall_cons; [unfold is_byte; lia |]). apply Forall_nil.
Defined.

Lemma bytes_apdu : Forall is_byte [0xA0; 0xA4; 0x00; 0x00; 0x02; 0x3F; 0x00].
Proof.
  repeat (apply Forall_cons; [unfold is_byte; lia |]). apply Forall_nil.
Defined.

(** X1 at the two-byte input 80 01. *)
Lemma do_send_two_bytes_as_four :
  ikey2k_do_send reader0 IKEY2K_CMD_LED_CONTROL [0x80; 0x01] 2
    (scripted [(0, [])]) =
  ikey2k_do_send reader0 IKEY2K_CMD_LED_CONTROL [0x80; 0x01; 0; 0] 4
    (scripted [(0, [])]).
Proof.
  exact (do_send_short_input_is_zero_padded reader0 IKEY2K_CMD_LED_CONTROL
           [0x80; 0x01] (scripted [(0, [])]) bytes_80_01
           ltac:(simpl; lia)).
Defined.

(** X2 at a seven-byte input. *)
Lemma do_send_apdu_recoverable :
  exists value index rest len rc,
    events (ikey2k_do_send reader0 IKEY2K_CMD_CARD_IO
              [0xA0; 0xA4; 0x00; 0x00; 0x02; 0x3F; 0x00] 7)
      (scripted [(3, [])]) =
      [UsbControl (Some tt) 0x41 23 value index rest len 1000 rc] /\
    firstn 7 (header_bytes value index ++ payload rest len) =
      [0xA0; 0xA4; 0x00; 0x00; 0x02; 0x3F; 0x00].
Proof.
  exact (do_send_input_recoverable reader0 IKEY2K_CMD_CARD_IO
           [0xA0; 0xA4; 0x00; 0x00; 0x02; 0x3F; 0x00] (scripted [(3, [])])
           bytes_apdu).
Defined.

(** X5 at a seven-byte input of the exchange sub-command. *)
Lemma card_cmd_exchange_apdu :
  exists data rc,
    hd_error (events (ikey2k_do_card_cmd reader0 IKEY2K_CARDCMD_EXCHANGE 0
                        [0xA0; 0xA4; 0x00; 0x00; 0x02; 0x3F; 0x00] 7
                        None 0) (scripted [(5, [])])) =
      Some (UsbControl (Some tt) 0x41 22 3 (0xA0 + 256 * 0xA4) data 5 1000
              rc) /\
    payload data 5 = [0x00; 0x00; 0x02; 0x3F; 0x00].
Proof.
  exact (do_card_cmd_sends_header_and_input_only reader0
           IKEY2K_CARDCMD_EXCHANGE 0
           [0xA0; 0xA4; 0x00; 0x00; 0x02; 0x3F; 0x00] None 0
           (scripted [(5, [])]) bytes_apdu ltac:(simpl; lia)).
Defined.

(** X7 at two buffers that hold the example descriptor and differ after
    it. *)
Lemma parse_desc_ignores_bytes_after_13 :
  ikey2k_parse_desc reader0 (example_desc ++ [1; 2; 3]) 13 =
  ikey2k_parse_desc reader0 (example_desc ++ [0xFF]) 13.
Proof.
  apply (parse_desc_reads_within_length reader0). reflexivity.
Defined.

(** X12 at a device that takes the bytes and answers with a status word. *)
Lemma send_then_recv_status_word :
  let w := scripted [(3, []); (2, [0x90; 0x00])] in
  ikey2k_do_cmd reader0 IKEY2K_CMD_CARD_IO
    [0xA0; 0xA4; 0x00; 0x00; 0x02; 0x3F; 0x00] 7 (Some [0; 0]) 2 w =
  let '((rc, out'), w', evs) :=
    bind (ikey2k_send reader0 0
            [0xA0; 0xA4; 0x00; 0x00; 0x02; 0x3F; 0x00] 7)
      (fun _ => ikey2k_recv reader0 0 [0; 0] 2 1000) w in
  ((rc, Some out'), w', evs).
Proof.
  cbv zeta.
  apply (send_then_recv_is_do_cmd reader0 0 0
           [0xA0; 0xA4; 0x00; 0x00; 0x02; 0x3F; 0x00] 7 [0; 0] 2 1000
           (scripted [(3, []); (2, [0x90; 0x00])])).
  - vm_compute. discriminate.
  - discriminate.
Defined.

(** X13 at a USB device that accepts the parameters. *)
Lemma open_usb_device :
  ikey2k_open closed_reader "usb:0" (scripted []) =
  ((0, mkReader "Rainbow Technologies iKey 2032" 1 (Some tt) tt),
   scripted [],
   [DeviceOpen "usb:0" (Some tt); DeviceType tt 2;
    DeviceSetParameters tt 0 0]).
Proof.
  apply (proj2 (open_succeeds_iff closed_reader "usb:0" (scripted [])) tt).
  - reflexivity.
  - reflexivity.
  - vm_compute. discriminate.
Defined.

(** X14 at a device that cannot be opened. *)
Lemma open_missing_device :
  ikey2k_open closed_reader "usb:0" (mkSim [] false 2 0) =
  ((-1, mkReader "Rainbow Technologies iKey 2032" 1 None tt),
   mkSim [] false 2 0, [DeviceOpen "usb:0" None]).
Proof.
  apply (proj1 (open_failure_traces closed_reader "usb:0"
                  (mkSim [] false 2 0))).
  reflexivity.
Defined.

(** X3 at a length that reaches past the end of a five-byte buffer. *)
Lemma do_send_length_past_buffer :
  exists value index,
    ikey2k_do_send reader0 IKEY2K_CMD_WRITE [1; 2; 3; 4; 5] 7
      (scripted [(3, [])]) =
      (3, scripted [],
       [UsbControl (Some tt) 0x41 8 value index [5] 3 1000 3]) /\
    0 <= value < 65536 /\ 0 <= index < 65536.
Proof.
  exact (do_send_always_one_transfer reader0 IKEY2K_CMD_WRITE
           [1; 2; 3; 4; 5] 7 (scripted [(3, [])])
           ltac:(lia) ltac:(simpl; lia)).
Defined.

(** X8 at a device whose receive fails, and at one that delivers a
    descriptor with a bad byte 1. *)
Lemma activate_two_defined_runs :
  result (ikey2k_activate reader0) (scripted []) = Some (-1) /\
  filter is_error (events (ikey2k_activate reader0) (scripted [])) =
    [CtError "ikey2k: failed to reset reader" []] /\
  result (ikey2k_activate reader0) (scripted [(13, bad_tag_desc)]) = Some 0 /\
  filter is_error
    (events (ikey2k_activate reader0) (scripted [(13, bad_tag_desc)])) = [].
Proof.
  destruct (activate_fails_only_on_empty_receive reader0 (scripted []))
    as (Hfail & _ & Herr & _).
  { left. vm_compute. discriminate. }
  destruct (activate_fails_only_on_empty_receive reader0
              (scripted [(13, bad_tag_desc)]))
    as (_ & Hok & Hnone & _).
  { right. intros (_ & _ & Htag & _). vm_compute in Htag.
    destruct Htag as [Htag _]. apply Htag. reflexivity. }
  repeat apply conj.
  - apply Hfail. vm_compute. discriminate.
  - exact Herr.
  - apply Hok. vm_compute. reflexivity.
  - exact Hnone.
Defined.

End MoreRuns.
